(** * iOS IPA binary analysis: a shallow embedding of
      [StaticAnalyzer/views/ios/binary_analysis.py]

    The Python module is embedded function by function.  Everything the
    module obtains from its surroundings (the host platform, the Django
    settings, the file system, the external inspection utilities, the
    Mach-O parser, the strings helper, Django's [escape]) is read from an
    environment record [Env].  Effects are kept in a writer monad: a
    computation yields either a value or a raised exception, together
    with the list of events it performed, so that [try ... except
    Exception] blocks and "no utility was invoked" can both be stated. *)

From Stdlib Require Import String Ascii List Bool Arith ZArith QArith Lia.
Import ListNotations.
Local Close Scope Q_scope.
Local Open Scope list_scope.
Local Open Scope string_scope.

(* ================================================================== *)
(** * Python values used by the module *)

(** Python [bytes] and [str] objects are both sequences of 8-bit
    characters here; a [str] is thought of in its UTF-8 encoding. *)
Definition bytes := string.
Definition str := string.

(** [p] is a prefix of [s] ([s.startswith(p)]). *)
Fixpoint prefix (p s : string) : bool :=
  match p with
  | EmptyString => true
  | String a p' =>
      match s with
      | EmptyString => false
      | String b s' => Ascii.eqb a b && prefix p' s'
      end
  end.

(** The Python operator [needle in s] on two [str] or two [bytes]. *)
Fixpoint contains (needle s : string) : bool :=
  prefix needle s ||
  match s with
  | EmptyString => false
  | String _ s' => contains needle s'
  end.

(** [s.endswith(suf)]. *)
Fixpoint endswith (s suf : string) : bool :=
  String.eqb s suf ||
  match s with
  | EmptyString => false
  | String _ s' => endswith s' suf
  end.

(** [s.replace(old, new)]: every non-overlapping occurrence of [old],
    leftmost first.  [skip] counts the characters of an occurrence that are
    still to be passed over. *)
Fixpoint replace_from (old new s : string) (skip : nat) : string :=
  match s with
  | EmptyString => EmptyString
  | String c s' =>
      match skip with
      | S k => replace_from old new s' k
      | O =>
          if prefix old s
          then new ++ replace_from old new s' (String.length old - 1)
          else String c (replace_from old new s' 0)
      end
  end.

Fixpoint intersperse (new s : string) : string :=
  match s with
  | EmptyString => EmptyString
  | String c s' => String c (new ++ intersperse new s')
  end.

Definition replace (old new s : string) : string :=
  match old with
  | EmptyString => new ++ intersperse new s
  | String _ _ => replace_from old new s 0
  end.

(** [s.split(sep)] for a one-character separator. *)
Fixpoint split (sep : ascii) (s : string) : list string :=
  match s with
  | EmptyString => [EmptyString]
  | String c s' =>
      if Ascii.eqb c sep then EmptyString :: split sep s'
      else match split sep s' with
           | h :: t => String c h :: t
           | [] => [String c EmptyString]
           end
  end.

Definition newline : ascii := Ascii.ascii_of_nat 10.

(** [sep.join(l)]. *)
Definition join (sep : string) (l : list string) : string :=
  String.concat sep l.

(* ================================================================== *)
(** * [re.findall] for an alternation of literals

    Every pattern of the module is an alternation [t1|t2|...|tn] of
    literal tokens, so a pattern is the ordered list of its alternatives.
    The matcher follows the [re] module of Python 3.7 and later: at each
    position the first alternative that matches wins; an empty match is
    reported, and the next search starts at the same position but must
    advance, which lets a later non-empty alternative match there. *)

Definition pattern := list bytes.

Fixpoint first_match (alts : pattern) (s : bytes) (must_advance : bool)
  : option bytes :=
  match alts with
  | [] => None
  | a :: rest =>
      if prefix a s && negb (must_advance && (String.length a =? 0)%nat)
      then Some a
      else first_match rest s must_advance
  end.

(** [findall_from alts s skip]: the matches found in [s], the first
    [skip] characters of which belong to a match already reported. *)
Fixpoint findall_from (alts : pattern) (s : bytes) (skip : nat)
  : list bytes :=
  match s with
  | EmptyString =>
      match skip with
      | S _ => []
      | O => match first_match alts EmptyString false with
             | Some m => [m]
             | None => []
             end
      end
  | String _ s' =>
      match skip with
      | S k => findall_from alts s' k
      | O =>
          match first_match alts s false with
          | None => findall_from alts s' 0
          | Some m =>
              match String.length m with
              | S n => m :: findall_from alts s' n
              | O =>
                  m :: match first_match alts s true with
                       | Some m' =>
                           m' :: findall_from alts s' (String.length m' - 1)
                       | None => findall_from alts s' 0
                       end
              end
          end
      end
  end.

Definition findall (alts : pattern) (s : bytes) : list bytes :=
  findall_from alts s 0.

(** The patterns of [otool_analysis], in source order. *)
Definition banned_pattern : pattern :=
  ["_alloca"; "_gets"; "_memcpy"; "_printf"; "_scanf"; "_sprintf";
   "_sscanf"; "_strcat"; "StrCat"; "_strcpy"; "StrCpy"; "_strlen"; "StrLen";
   "_strncat"; "StrNCat"; "_strncpy"; "StrNCpy"; "_strtok"; "_swprintf";
   "_vsnprintf"; "_vsprintf"; "_vswprintf"; "_wcscat"; "_wcscpy"; "_wcslen";
   "_wcsncat"; "_wcsncpy"; "_wcstok"; "_wmemcpy"; "_fopen"; "_chmod";
   "_chown"; "_stat"; "_mktemp"].

(** The source pattern has two consecutive bars after [kCCAlgorithm3DES]:
    its third alternative is the empty string. *)
Definition weak_crypto_pattern : pattern :=
  ["kCCAlgorithmDES"; "kCCAlgorithm3DES"; ""; "kCCAlgorithmRC2";
   "kCCAlgorithmRC4"; "kCCOptionECBMode"; "kCCOptionCBCMode"].

Definition crypto_pattern : pattern :=
  ["CCKeyDerivationPBKDF"; "CCCryptorCreate"; "CCCryptorCreateFromData";
   "CCCryptorRelease"; "CCCryptorUpdate"; "CCCryptorFinal";
   "CCCryptorGetOutputLength"; "CCCryptorReset"; "CCCryptorRef";
   "kCCEncrypt"; "kCCDecrypt"; "kCCAlgorithmAES128"; "kCCKeySizeAES128";
   "kCCKeySizeAES192"; "kCCKeySizeAES256"; "kCCAlgorithmCAST";
   "SecCertificateGetTypeID"; "SecIdentityGetTypeID"; "SecKeyGetTypeID";
   "SecPolicyGetTypeID"; "SecTrustGetTypeID";
   "SecCertificateCreateWithData"; "SecCertificateCreateFromData";
   "SecCertificateCopyData"; "SecCertificateAddToKeychain";
   "SecCertificateGetData"; "SecCertificateCopySubjectSummary";
   "SecIdentityCopyCertificate"; "SecIdentityCopyPrivateKey";
   "SecPKCS12Import"; "SecKeyGeneratePair"; "SecKeyEncrypt";
   "SecKeyDecrypt"; "SecKeyRawSign"; "SecKeyRawVerify";
   "SecKeyGetBlockSize"; "SecPolicyCopyProperties";
   "SecPolicyCreateBasicX509"; "SecPolicyCreateSSL";
   "SecTrustCopyCustomAnchorCertificates"; "SecTrustCopyExceptions";
   "SecTrustCopyProperties"; "SecTrustCopyPolicies";
   "SecTrustCopyPublicKey"; "SecTrustCreateWithCertificates";
   "SecTrustEvaluate"; "SecTrustEvaluateAsync";
   "SecTrustGetCertificateCount"; "SecTrustGetCertificateAtIndex";
   "SecTrustGetTrustResult"; "SecTrustGetVerifyTime";
   "SecTrustSetAnchorCertificates"; "SecTrustSetAnchorCertificatesOnly";
   "SecTrustSetExceptions"; "SecTrustSetPolicies"; "SecTrustSetVerifyDate";
   "SecCertificateRef"; "SecIdentityRef"; "SecKeyRef"; "SecPolicyRef";
   "SecTrustRef"].

Definition weak_hash_pattern : pattern :=
  ["CC_MD2_Init"; "CC_MD2_Update"; "CC_MD2_Final"; "CC_MD2"; "MD2_Init";
   "MD2_Update"; "MD2_Final"; "CC_MD4_Init"; "CC_MD4_Update";
   "CC_MD4_Final"; "CC_MD4"; "MD4_Init"; "MD4_Update"; "MD4_Final";
   "CC_MD5_Init"; "CC_MD5_Update"; "CC_MD5_Final"; "CC_MD5"; "MD5_Init";
   "MD5_Update"; "MD5_Final"; "MD5Init"; "MD5Update"; "MD5Final";
   "CC_SHA1_Init"; "CC_SHA1_Update"; "CC_SHA1_Final"; "CC_SHA1";
   "SHA1_Init"; "SHA1_Update"; "SHA1_Final"].

Definition hash_pattern : pattern :=
  ["CC_SHA224_Init"; "CC_SHA224_Update"; "CC_SHA224_Final"; "CC_SHA224";
   "SHA224_Init"; "SHA224_Update"; "SHA224_Final"; "CC_SHA256_Init";
   "CC_SHA256_Update"; "CC_SHA256_Final"; "CC_SHA256"; "SHA256_Init";
   "SHA256_Update"; "SHA256_Final"; "CC_SHA384_Init"; "CC_SHA384_Update";
   "CC_SHA384_Final"; "CC_SHA384"; "SHA384_Init"; "SHA384_Update";
   "SHA384_Final"; "CC_SHA512_Init"; "CC_SHA512_Update"; "CC_SHA512_Final";
   "CC_SHA512"; "SHA512_Init"; "SHA512_Update"; "SHA512_Final"].

Definition random_pattern : pattern := ["_srand"; "_random"].
Definition log_pattern : pattern := ["_NSLog"].
Definition malloc_pattern : pattern := ["_malloc"].
Definition ptrace_pattern : pattern := ["_ptrace"].

(* ================================================================== *)
(** * Effects: events, exceptions, and the writer monad *)

(** What a run does to the outside world, in the order it happens. *)
Inductive event : Type :=
| Log (level : string) (msg : string)
| ListDir (path : string)                    (* os.listdir *)
| ReadHeader (path : string)                 (* MachO(bin_file) *)
| Exec (args : list string)                  (* subprocess.check_output *)
| Chmod (path : string)                      (* os.chmod *)
| WriteFile (path : string) (text : str)     (* open(..., 'w').write *)
| ExtractStrings (path : string).            (* strings_util *)

(** The exceptions that can reach an [except Exception] clause. *)
Inductive exn : Type :=
| TypeError          (* an operation applied to [None] or a wrong type *)
| AttributeError     (* a method that the object does not have *)
| OSError            (* listdir, chmod, open or write failed *)
| SubprocessError    (* the utility is missing or exited non-zero *)
| MachOError         (* the Mach-O parser rejected the file *)
| StringsError.      (* the strings helper failed *)

Inductive outcome (A : Type) : Type :=
| Ok (a : A)
| Raise (e : exn).
Arguments Ok {A} a.
Arguments Raise {A} e.

Definition M (A : Type) : Type := (outcome A * list event)%type.

Definition ret {A} (a : A) : M A := (Ok a, []).
Definition raise {A} (e : exn) : M A := (Raise e, []).
Definition emit (ev : event) : M unit := (Ok tt, [ev]).

Definition bind {A B} (m : M A) (k : A -> M B) : M B :=
  match m with
  | (Ok a, t) => let (r, t') := k a in (r, (t ++ t')%list)
  | (Raise e, t) => (Raise e, t)
  end.

(** [try: body  except Exception: handler]. *)
Definition try_except {A} (body : M A) (handler : exn -> M A) : M A :=
  match body with
  | (Ok a, t) => (Ok a, t)
  | (Raise e, t) => let (r, t') := handler e in (r, (t ++ t')%list)
  end.

Definition result {A} (m : M A) : outcome A := fst m.
Definition trace {A} (m : M A) : list event := snd m.

Notation "x <- m ;; k" := (bind m (fun x => k))
  (at level 61, m at next level, right associativity).
Notation "m ;; k" := (bind m (fun _ => k))
  (at level 61, right associativity).

Definition logger_info (msg : string) : M unit := emit (Log "INFO" msg).
Definition logger_warning (msg : string) : M unit := emit (Log "WARNING" msg).
Definition logger_error (msg : string) : M unit := emit (Log "ERROR" msg).
(** [logger.exception] logs at level ERROR, with the traceback. *)
Definition logger_exception (msg : string) : M unit := emit (Log "ERROR" msg).

(* ================================================================== *)
(** * The environment of a run *)

(** One structural header as [macholib] presents it. *)
Record Header : Type := {
  MH_MAGIC : Z;
  h_endian : string;
  h_cputype : Z;
  h_cpusubtype : Z
}.

Record Env : Type := {
  (* django.conf.settings *)
  OTOOL_BINARY : string;
  JTOOL_BINARY : string;
  CLASSDUMP_SWIFT_BINARY : string;
  CLASSDUMPZ_BINARY : string;
  (* platform.system() *)
  platform_system : string;
  (* MobSF.utils.is_file_exists *)
  is_file_exists : string -> bool;
  (* os.listdir; [None] when it raises *)
  os_listdir : string -> option (list string);
  (* os.path.join of the host *)
  os_path_join : string -> string -> string;
  (* os.chmod(path, 0o777); [false] when it raises *)
  os_chmod : string -> bool;
  (* subprocess.check_output; [None] when it raises *)
  check_output : list string -> option bytes;
  (* writing a text file; [false] when open or write raises *)
  write_text : string -> str -> bool;
  (* MachO(bin_file).headers; [None] when the parser raises *)
  MachO_headers : string -> option (list Header);
  (* macholib's CPU_TYPE_NAMES and get_cpu_subtype *)
  CPU_TYPE_NAMES : Z -> option string;
  get_cpu_subtype : Z -> Z -> string;
  (* StaticAnalyzer.tools.strings.strings_util; [None] when it raises *)
  strings_util : string -> option (list str);
  (* bytes.decode('utf-8', 'ignore') *)
  decode_ignore : bytes -> str;
  (* django.utils.html.escape and django.utils.encoding.smart_text *)
  escape : str -> str;
  smart_text : str -> str;
  (* list(set(l)): the elements of [l], each once, in the iteration
     order of the interpreter's hash table *)
  set_iter : list string -> list string;
  set_iter_NoDup : forall l, NoDup (set_iter l);
  set_iter_In : forall l x, In x (set_iter l) <-> In x l
}.

Definition MH_MAGIC_64 : Z := 0xfeedfacf.
Definition MH_CIGAM_64 : Z := 0xcffaedfe.

Definition listdir (E : Env) (path : string) : M (list string) :=
  emit (ListDir path) ;;
  match os_listdir E path with
  | Some l => ret l
  | None => raise OSError
  end.

Definition chmod (E : Env) (path : string) : M unit :=
  emit (Chmod path) ;;
  if os_chmod E path then ret tt else raise OSError.

Definition subprocess_check_output (E : Env) (args : list string) : M bytes :=
  emit (Exec args) ;;
  match check_output E args with
  | Some out => ret out
  | None => raise SubprocessError
  end.

Definition write_file (E : Env) (path : string) (text : str) : M unit :=
  emit (WriteFile path text) ;;
  if write_text E path text then ret tt else raise OSError.

Definition MachO (E : Env) (bin_file : string) : M (list Header) :=
  emit (ReadHeader bin_file) ;;
  match MachO_headers E bin_file with
  | Some hs => ret hs
  | None => raise MachOError
  end.

Definition run_strings_util (E : Env) (bin_path : string) : M (list str) :=
  emit (ExtractStrings bin_path) ;;
  match strings_util E bin_path with
  | Some l => ret l
  | None => raise StringsError
  end.

(* ================================================================== *)
(** * Findings and reports *)

Definition SECURE : string := "Secure".
Definition IN_SECURE : string := "Insecure".
Definition INFO : string := "Info".
Definition WARNING : string := "Warning".

(** A finding is the five-key dictionary the module builds. *)
Record Finding : Type := {
  issue : string;
  status : string;
  description : string;
  cvss : Q;
  cwe : string
}.

(** A slot that holds either a finding or the empty dictionary [{}]
    ([None] here); the empty dictionary is falsy in Python. *)
Definition finding_dict : Type := option Finding.

(** What [get_otool_out] can return: [None], the list of library lines,
    or the raw output of a utility. *)
Inductive tool_output : Type :=
| PyNone
| PyList (l : list str)
| PyBytes (b : bytes).

(** [needle in v] for a bytes needle. On [None] Python raises a
    TypeError; in a list of [str] no element equals a bytes object. *)
Definition py_in (needle : bytes) (v : tool_output) : M bool :=
  match v with
  | PyBytes b => ret (contains needle b)
  | PyList _ => ret false
  | PyNone => raise TypeError
  end.

(** [re.findall(pattern, v)] for a bytes pattern: only a bytes object
    is accepted. *)
Definition re_findall (alts : pattern) (v : tool_output) : M (list bytes) :=
  match v with
  | PyBytes b => ret (findall alts b)
  | _ => raise TypeError
  end.

Record otool_dict : Type := {
  otool_libs : tool_output;
  anal : list finding_dict
}.

Record BinInfo : Type := {
  endian : string;
  bit : string;
  arch : string + Z;
  subarch : string
}.

(** [binary_analysis_dict]: the keys 'libs', 'bin_res' and 'strings' are
    always set; 'macho' and 'bin_type' only when the executable exists
    (outer [None]: the key is absent). *)
Record Report : Type := {
  libs : tool_output;
  bin_res : list Finding;
  strings : option (list str);
  macho : option (option BinInfo);
  bin_type : option string
}.

(* ================================================================== *)
(** * The functions of the module *)

(** [template.format(arg)] for a template with one [{}] field. *)
Definition str_format (template arg : str) : str := replace "{}" arg template.

(** [template.formnat(arg)]: [str] has no such method, the attribute
    lookup raises before the argument is evaluated. *)
Definition str_formnat (template arg : str) : M str := raise AttributeError.

(** [len(x) > 0 and is_file_exists(x)]. *)
Definition configured (E : Env) (x : string) : bool :=
  (0 <? String.length x)%nat && is_file_exists E x.

(** Get otool args by OS and type. *)
Definition get_otool_out (E : Env) (tools_dir cmd_type bin_path bin_dir : string)
  : M tool_output :=
  let otool_bin :=
    if configured E (OTOOL_BINARY E) then OTOOL_BINARY E else "otool" in
  let jtool_bin :=
    if configured E (JTOOL_BINARY E) then JTOOL_BINARY E
    else os_path_join E tools_dir "jtool.ELF64" in
  let plat := platform_system E in
  if cmd_type =? "libs" then
    if plat =? "Darwin" then
      libs <- subprocess_check_output E [otool_bin; "-L"; bin_path] ;;
      let libs := decode_ignore E libs in
      let libs := smart_text E (escape E (replace (bin_dir ++ "/") "" libs)) in
      ret (PyList (split newline libs))
    else if plat =? "Linux" then
      libs <- subprocess_check_output E
                [jtool_bin; "-arch"; "arm"; "-L"; "-v"; bin_path] ;;
      let libs := decode_ignore E libs in
      let libs := smart_text E (escape E (replace (bin_dir ++ "/") "" libs)) in
      ret (PyList (split newline libs))
    else
      (* Platform Not Supported *)
      ret PyNone
  else if cmd_type =? "header" then
    if plat =? "Darwin" then
      out <- subprocess_check_output E [otool_bin; "-hv"; bin_path] ;;
      ret (PyBytes out)
    else if plat =? "Linux" then
      out <- subprocess_check_output E
               [jtool_bin; "-arch"; "arm"; "-h"; "-v"; bin_path] ;;
      ret (PyBytes out)
    else
      (* Platform Not Supported *)
      ret PyNone
  else if cmd_type =? "symbols" then
    if plat =? "Darwin" then
      out <- subprocess_check_output E [otool_bin; "-Iv"; bin_path] ;;
      ret (PyBytes out)
    else if plat =? "Linux" then
      out1 <- subprocess_check_output E
                [jtool_bin; "-arch"; "arm"; "-bind"; "-v"; bin_path] ;;
      out2 <- subprocess_check_output E
                [jtool_bin; "-arch"; "arm"; "-lazy_bind"; "-v"; bin_path] ;;
      ret (PyBytes (out1 ++ out2))
    else
      (* Platform Not Supported *)
      ret PyNone
  else ret PyNone.

(** The body of the [try] block of [otool_analysis]. *)
Definition otool_analysis_try (E : Env) (tools_dir bin_name bin_path bin_dir : string)
  : M otool_dict :=
  logger_info ("Running Object Analysis of Binary : " ++ bin_name) ;;
  libs <- get_otool_out E tools_dir "libs" bin_path bin_dir ;;
  (* PIE *)
  pie_dat <- get_otool_out E tools_dir "header" bin_path bin_dir ;;
  has_pie <- py_in "PIE" pie_dat ;;
  let pie_flag :=
    if has_pie then
      {| issue := "fPIE -pie flag is Found";
         status := SECURE;
         description := "App is compiled with Position Independent Executable (PIE) flag. This enables Address Space Layout Randomization (ASLR), a memory protection mechanism for exploit mitigation.";
         cvss := 0;
         cwe := "" |}
    else
      {| issue := "fPIE -pie flag is not Found";
         status := IN_SECURE;
         description := "with Position Independent Executable (PIE) flag. So Address Space Layout Randomization (ASLR) is missing. ASLR is a memory protection mechanism for exploit mitigation.";
         cvss := 2;
         cwe := "CWE-119" |} in
  (* Stack Smashing Protection & ARC *)
  dat <- get_otool_out E tools_dir "symbols" bin_path bin_dir ;;
  has_ssp <- py_in "stack_chk_guard" dat ;;
  let ssmash :=
    if has_ssp then
      {| issue := "fstack-protector-all flag is Found";
         status := SECURE;
         description := "App is compiled with Stack Smashing Protector (SSP) flag and is having protection against Stack Overflows/Stack Smashing Attacks.";
         cvss := 0;
         cwe := "" |}
    else
      {| issue := "fstack-protector-all flag is not Found";
         status := IN_SECURE;
         description := "App is not compiled with Stack Smashing Protector (SSP) flag. It is vulnerable toStack Overflows/Stack Smashing Attacks.";
         cvss := 2;
         cwe := "CWE-119" |} in
  (* ARC *)
  has_arc <- py_in "_objc_release" dat ;;
  let arc_flag :=
    if has_arc then
      {| issue := "fobjc-arc flag is Found";
         status := SECURE;
         description := "App is compiled with Automatic Reference Counting (ARC) flag. ARC is a compiler feature that provides automatic memory management of Objective-C objects and is an exploit mitigation mechanism against memory corruption vulnerabilities.";
         cvss := 0;
         cwe := "" |}
    else
      {| issue := "fobjc-arc flag is not Found";
         status := IN_SECURE;
         description := "App is not compiled with Automatic Reference Counting (ARC) flag. ARC is a compiler feature that provides automatic memory management of Objective-C objects and protects from memory corruption vulnerabilities.";
         cvss := 2;
         cwe := "CWE-119" |} in
  baned <- re_findall banned_pattern dat ;;
  let baned := set_iter E baned in
  let baned_s := join ", " baned in
  let banned_apis : finding_dict :=
    if (1 <? String.length baned_s)%nat then
      Some {| issue := "Binary make use of banned API(s)";
              status := IN_SECURE;
              description :=
                str_format "The binary may contain the following banned API(s) {}."
                           (decode_ignore E baned_s);
              cvss := 6;
              cwe := "CWE-676" |}
    else None in
  weak_algo <- re_findall weak_crypto_pattern dat ;;
  let weak_algo := set_iter E weak_algo in
  let weak_algo_s := join ", " weak_algo in
  weak_cryptos <-
    (if (1 <? String.length weak_algo_s)%nat then
       d <- str_formnat "The binary may use the following weak crypto API(s) {}."
                        (decode_ignore E weak_algo_s) ;;
       ret (Some {| issue := "Binary make use of some Weak Crypto API(s)";
                    status := IN_SECURE;
                    description := d;
                    cvss := 3;
                    cwe := "CWE-327" |})
     else ret None) ;;
  crypto_algo <- re_findall crypto_pattern dat ;;
  let crypto_algo := set_iter E crypto_algo in
  let crypto_algo_s := join ", " crypto_algo in
  let crypto : finding_dict :=
    if (1 <? String.length crypto_algo_s)%nat then
      Some {| issue := "Binary make use of the following Crypto API(s)";
              status := "Info";
              description :=
                str_format "The binary may use the following crypto API(s) {}."
                           (decode_ignore E crypto_algo_s);
              cvss := 0;
              cwe := "" |}
    else None in
  weak_hash_algo <- re_findall weak_hash_pattern dat ;;
  let weak_hash_algo := set_iter E weak_hash_algo in
  let weak_hash_algo_s := join ", " weak_hash_algo in
  let weak_hashes : finding_dict :=
    if (1 <? String.length weak_hash_algo_s)%nat then
      Some {| issue := "Binary make use of the following Weak HASH API(s)";
              status := IN_SECURE;
              description :=
                str_format "The binary may use the following weak hash API(s) {}."
                           (decode_ignore E weak_hash_algo_s);
              cvss := 3;
              cwe := "CWE-327" |}
    else None in
  hash_algo <- re_findall hash_pattern dat ;;
  let hash_algo := set_iter E hash_algo in
  let hash_algo_s := join ", " hash_algo in
  let hashes : finding_dict :=
    if (1 <? String.length hash_algo_s)%nat then
      Some {| issue := "Binary make use of the following HASH API(s)";
              status := INFO;
              description :=
                str_format "The binary may use the following hash API(s) {}."
                           (decode_ignore E hash_algo_s);
              cvss := 0;
              cwe := "" |}
    else None in
  rand_algo <- re_findall random_pattern dat ;;
  let rand_algo := set_iter E rand_algo in
  let rand_algo_s := join ", " rand_algo in
  let randoms : finding_dict :=
    if (1 <? String.length rand_algo_s)%nat then
      Some {| issue := "Binary make use of the insecure Random Function(s)";
              status := IN_SECURE;
              description :=
                str_format "The binary may use the following insecure Random Function(s) {}."
                           (decode_ignore E rand_algo_s);
              cvss := 3;
              cwe := "CWE-338" |}
    else None in
  log <- re_findall log_pattern dat ;;
  let log := set_iter E log in
  let log_s := join ", " log in
  let logging : finding_dict :=
    if (1 <? String.length log_s)%nat then
      Some {| issue := "Binary make use of Logging Function";
              status := INFO;
              description := "The binary may use NSLog function for logging.";
              cvss := 7.5;
              cwe := "CWE-532" |}
    else None in
  mal <- re_findall malloc_pattern dat ;;
  let mal := set_iter E mal in
  let mal_s := join ", " mal in
  let malloc : finding_dict :=
    if (1 <? String.length mal_s)%nat then
      Some {| issue := "Binary make use of malloc Function";
              status := IN_SECURE;
              description := "The binary may use malloc function instead of calloc.";
              cvss := 2;
              cwe := "CWE-789" |}
    else None in
  ptrace <- re_findall ptrace_pattern dat ;;
  let ptrace := set_iter E ptrace in
  let ptrace_s := join ", " ptrace in
  let debug : finding_dict :=
    if (1 <? String.length ptrace_s)%nat then
      Some {| issue := "Binary calls ptrace Function for anti-debugging.";
              status := WARNING;
              description := "The binary may use ptrace function. It can be used to detect and prevent debuggers.Ptrace is not a public API and Apps that use non-public APIs will be rejected from AppStore.";
              cvss := 0;
              cwe := "" |}
    else None in
  ret {| otool_libs := libs;
         anal := [Some pie_flag; Some ssmash; Some arc_flag; banned_apis;
                  weak_cryptos; crypto; weak_hashes; hashes; randoms;
                  logging; malloc; debug] |}.

(** OTOOL Analysis of Binary.  When the [try] block raises, the handler
    logs and the function falls off its end: Python returns [None]. *)
Definition otool_analysis (E : Env) (tools_dir bin_name bin_path bin_dir : string)
  : M (option otool_dict) :=
  try_except
    (d <- otool_analysis_try E tools_dir bin_name bin_path bin_dir ;;
     ret (Some d))
    (fun _ =>
       logger_exception "Performing Object Analysis of Binary" ;;
       ret None).

(** Detect IPA binary type. *)
Definition detect_bin_type (libs : list str) : string :=
  if existsb (fun itm => contains "libswiftCore.dylib" itm) libs
  then "Swift"
  else "Objective C".

(** Running Classdumpz on binary.  The result is [None] when the [try]
    block raised, [Some None] for the empty dictionary, and
    [Some (Some f)] for the web-view finding.  The first call of the
    utility sends its standard error to [os.devnull]; only the standard
    output is looked at. *)
Definition class_dump (E : Env) (tools_dir bin_path app_dir bin_type : string)
  : M (option finding_dict) :=
  try_except
    (let plat := platform_system E in
     args <-
       (if plat =? "Darwin" then
          logger_info "Dumping classes" ;;
          class_dump_bin <-
            (if bin_type =? "Swift" then
               logger_info "Running class-dump-swift aganst binary" ;;
               ret (if configured E (CLASSDUMP_SWIFT_BINARY E)
                    then CLASSDUMP_SWIFT_BINARY E
                    else os_path_join E tools_dir "class-dump-swift")
             else
               logger_info "Running class-dump-z aganst binary" ;;
               ret (if configured E (CLASSDUMPZ_BINARY E)
                    then CLASSDUMPZ_BINARY E
                    else os_path_join E tools_dir "class-dump-z")) ;;
          chmod E class_dump_bin ;;
          ret (Some [class_dump_bin; bin_path])
        else if plat =? "Linux" then
          logger_info "Running jtool against the binary for dumping classes" ;;
          let jtool_bin :=
            if configured E (JTOOL_BINARY E) then JTOOL_BINARY E
            else os_path_join E tools_dir "jtool.ELF64" in
          chmod E jtool_bin ;;
          ret (Some [jtool_bin; "-arch"; "arm"; "-d"; "objc"; "-v"; bin_path])
        else
          (* Platform not supported *)
          logger_warning "class-dump is not supported in this platform" ;;
          ret None) ;;
     match args with
     | None => ret (Some None)
     | Some args =>
         classdump <- subprocess_check_output E args ;;
         classdump <-
           (if contains "Source: (null)" classdump && (plat =? "Darwin") then
              logger_info "Running fail safe class-dump-swift" ;;
              let class_dump_bin := os_path_join E tools_dir "class-dump-swift" in
              subprocess_check_output E [class_dump_bin; bin_path]
            else ret classdump) ;;
         let dump_file := os_path_join E app_dir "classdump.txt" in
         write_file E dump_file (decode_ignore E classdump) ;;
         ret (Some (if contains "UIWebView" classdump then
                      Some {| issue := "Binary uses WebView Component.";
                              status := INFO;
                              description := "The binary may use WebView Component.";
                              cvss := 0;
                              cwe := "" |}
                    else None))
     end)
    (fun _ =>
       logger_error "class-dump-z/class-dump-swift failed on this binary" ;;
       ret None).

(** Extract Strings from IPA. *)
Definition strings_on_ipa (E : Env) (bin_path : string) : M (option (list str)) :=
  try_except
    (logger_info "Running strings against the Binary" ;;
     found <- run_strings_util E bin_path ;;
     let unique_str := set_iter E found in            (* Make unique *)
     let unique_str := map (escape E) unique_str in   (* Escape evil strings *)
     ret (Some unique_str))
    (fun _ =>
       logger_exception "Running strings against the Binary" ;;
       ret None).

(** Get Binary Information: the dictionary of the first header, [None]
    when the file has no header. *)
Definition get_bin_info (E : Env) (bin_file : string) : M (option BinInfo) :=
  logger_info "Getting Binary Information" ;;
  m <- MachO E bin_file ;;
  match m with
  | [] => ret None
  | header :: _ =>
      let sz :=
        if (MH_MAGIC header =? MH_MAGIC_64)%Z || (MH_MAGIC header =? MH_CIGAM_64)%Z
        then "64-bit" else "32-bit" in
      let arch :=
        match CPU_TYPE_NAMES E (h_cputype header) with
        | Some name => inl name
        | None => inr (h_cputype header)
        end in
      let subarch := get_cpu_subtype E (h_cputype header) (h_cpusubtype header) in
      ret (Some {| endian := h_endian header;
                   bit := sz;
                   arch := arch;
                   subarch := subarch |})
  end.

(** [otool_dict['libs']] and [otool_dict['anal']]: subscripting [None]
    raises a TypeError. *)
Definition subscript {A} (d : option otool_dict) (key : otool_dict -> A) : M A :=
  match d with
  | Some d => ret (key d)
  | None => raise TypeError
  end.

(** [detect_bin_type] applied to whatever ['libs'] holds: iterating
    [None] raises, and so does [str in int] on the first byte of a
    bytes object. *)
Definition call_detect_bin_type (v : tool_output) : M string :=
  match v with
  | PyList l => ret (detect_bin_type l)
  | PyBytes EmptyString => ret (detect_bin_type [])
  | PyBytes (String _ _) => raise TypeError
  | PyNone => raise TypeError
  end.

(** [filter(None, l)]: the truthy entries, that is the findings. *)
Fixpoint filter_truthy (l : list finding_dict) : list Finding :=
  match l with
  | [] => []
  | Some f :: l' => f :: filter_truthy l'
  | None :: l' => filter_truthy l'
  end.

(** Binary Analysis of IPA. *)
Definition binary_analysis (E : Env) (src tools_dir app_dir : string)
                           (executable_name : option string)
  : M (option Report) :=
  try_except
    (logger_info "Starting Binary Analysis" ;;
     dirs <- listdir E src ;;
     let dot_app_dir :=
       match find (fun dir_ => endswith dir_ ".app") dirs with
       | Some dir_ => dir_
       | None => ""
       end in
     (* Bin Dir - Dir/Payload/x.app/ *)
     let bin_dir := os_path_join E src dot_app_dir in
     let bin_name :=
       match executable_name with
       | None => replace ".app" "" dot_app_dir
       | Some name => name
       end in
     (* Bin Path - Dir/Payload/x.app/x *)
     let bin_path := os_path_join E bin_dir bin_name in
     if negb (is_file_exists E bin_path) then
       logger_warning ("MobSF Cannot find binary in " ++ bin_path) ;;
       logger_warning "Skipping Otool, Classdump and Strings" ;;
       ret (Some {| libs := PyList [];
                    bin_res := [];
                    strings := Some [];
                    macho := None;
                    bin_type := None |})
     else
       bin_info <- get_bin_info E bin_path ;;
       otool_dict <- otool_analysis E tools_dir bin_name bin_path bin_dir ;;
       otool_dict_libs <- subscript otool_dict otool_libs ;;
       bin_type <- call_detect_bin_type otool_dict_libs ;;
       cls_dump <- class_dump E tools_dir bin_path app_dir bin_type ;;
       let cls_dump : finding_dict :=
         match cls_dump with
         | Some (Some f) => Some f
         | _ => None                      (* if not cls_dump: cls_dump = {} *)
         end in
       strings_in_ipa <- strings_on_ipa E bin_path ;;
       otool_dict_anal <- subscript otool_dict anal ;;
       let otool_dict_anal := filter_truthy (otool_dict_anal ++ [cls_dump])%list in
       ret (Some {| libs := otool_dict_libs;
                    bin_res := otool_dict_anal;
                    strings := strings_in_ipa;
                    macho := Some bin_info;
                    bin_type := Some bin_type |}))
    (fun _ =>
       logger_exception "iOS Binary Analysis" ;;
       ret None).

(* ================================================================== *)
(** * Concrete environments *)

(** [posixpath.join] of two components. *)
Definition posix_join (a b : string) : string :=
  if prefix "/" b then b
  else if (a =? "") || endswith a "/" then a ++ b
  else a ++ "/" ++ b.

(** [html.escape], which Django's [escape] applies. *)
Fixpoint html_escape (s : str) : str :=
  match s with
  | EmptyString => EmptyString
  | String c s' =>
      let n := Ascii.nat_of_ascii c in
      (if (n =? 38)%nat then "&amp;"
       else if (n =? 60)%nat then "&lt;"
       else if (n =? 62)%nat then "&gt;"
       else if (n =? 34)%nat then "&quot;"
       else if (n =? 39)%nat then "&#x27;"
       else String c EmptyString) ++ html_escape s'
  end.

(** A host described by its platform name, the files that exist, the
    outputs of the external utilities, whether files can be written, and
    what the strings helper and the Mach-O parser give. *)
Definition host (plat : string) (files : list string)
                (exec : list string -> option bytes) (writable : bool)
                (strs : option (list str)) (headers : option (list Header))
  : Env :=
  {| OTOOL_BINARY := "";
     JTOOL_BINARY := "";
     CLASSDUMP_SWIFT_BINARY := "";
     CLASSDUMPZ_BINARY := "";
     platform_system := plat;
     is_file_exists := fun p => existsb (String.eqb p) files;
     os_listdir := fun p => if p =? "/Payload" then Some ["Info.plist"; "Demo.app"] else None;
     os_path_join := posix_join;
     os_chmod := fun p => true;
     check_output := exec;
     write_text := fun _ _ => writable;
     MachO_headers := fun _ => headers;
     CPU_TYPE_NAMES := fun c => if (c =? 12)%Z then Some "ARM" else None;
     get_cpu_subtype := fun _ _ => "CPU_SUBTYPE_ARM_V7";
     strings_util := fun _ => strs;
     decode_ignore := fun b => b;
     escape := html_escape;
     smart_text := fun s => s;
     set_iter := nodup string_dec;
     set_iter_NoDup := NoDup_nodup string_dec;
     set_iter_In := fun l x => nodup_In string_dec l x |}.

(** Utilities that answer by request shape: library list, header dump,
    symbol table, and anything else (the class dump). *)
Definition tools (libs header symbols classdump : bytes) (args : list string)
  : option bytes :=
  if existsb (String.eqb "-L") args then Some libs
  else if existsb (String.eqb "-hv") args || existsb (String.eqb "-h") args
  then Some header
  else if existsb (String.eqb "-Iv") args || existsb (String.eqb "-bind") args
  then Some symbols
  else if existsb (String.eqb "-lazy_bind") args then Some ""
  else Some classdump.

Definition arm_header : Header :=
  {| MH_MAGIC := 0xfeedface; h_endian := "<"; h_cputype := 12; h_cpusubtype := 9 |}.

(** A macOS host on which [/Payload/Demo.app/Demo] exists. *)
Definition darwin (symbols classdump : bytes) : Env :=
  host "Darwin" ["/Payload/Demo.app/Demo"]
       (tools "/usr/lib/libSystem.B.dylib" "MH_MAGIC ARM V7 PIE" symbols classdump)
       true (Some ["b"; "a<b"; "b"]) (Some [arm_header]).

(** A Windows host on which the executable exists as well. *)
Definition windows : Env :=
  host "Windows" ["/Payload/Demo.app/Demo"] (fun _ => None)
       true (Some ["b"; "a<b"; "b"]) (Some [arm_header]).

(** A host on which the executable is missing. *)
Definition empty_bundle : Env :=
  host "Darwin" [] (fun _ => None) true None None.

(** A host on which the strings helper fails. *)
Definition no_strings : Env :=
  host "Darwin" ["/Payload/Demo.app/Demo"]
       (tools "" "" "" "") true None (Some [arm_header]).

(** A host on which the class dump cannot be written. *)
Definition read_only (symbols classdump : bytes) : Env :=
  host "Darwin" ["/Payload/Demo.app/Demo"]
       (tools "/usr/lib/libSystem.B.dylib" "MH_MAGIC ARM V7 PIE" symbols classdump)
       false (Some ["b"; "a<b"; "b"]) (Some [arm_header]).

(* ================================================================== *)
(** * Notions used in the statements *)

(** [needle] occurs in [s]. *)
Definition occurs_in (needle s : string) : Prop :=
  exists pre post, s = pre ++ needle ++ post.

(** The Swift standard runtime shared library. *)
Definition swift_runtime : string := "libswiftCore.dylib".

(** The six legacy cipher and mode identifiers. *)
Definition legacy_cipher_identifiers : list bytes :=
  ["kCCAlgorithmDES"; "kCCAlgorithm3DES"; "kCCAlgorithmRC2";
   "kCCAlgorithmRC4"; "kCCOptionECBMode"; "kCCOptionCBCMode"].

Definition known_status (s : string) : Prop :=
  s = SECURE \/ s = IN_SECURE \/ s = INFO \/ s = WARNING.

(** The invariant of a finding as the specification words it: an empty
    weakness classification only on Secure and Info findings. *)
Definition spec_finding_invariant (f : Finding) : Prop :=
  (0 <= cvss f)%Q /\ known_status (status f) /\
  (cwe f = "" -> status f = SECURE \/ status f = INFO).

(** The invariant the findings of the module have: the classification
    may be empty on a Warning finding as well. *)
Definition finding_invariant (f : Finding) : Prop :=
  (0 <= cvss f)%Q /\ known_status (status f) /\
  (cwe f = "" -> status f = SECURE \/ status f = INFO \/ status f = WARNING).

(** The severity rule as the specification words it. *)
Definition spec_severity_rule (f : Finding) : Prop :=
  (status f = SECURE \/ status f = INFO -> (cvss f == 0)%Q) /\
  ((0 < cvss f)%Q -> status f = IN_SECURE \/ status f = WARNING).

Definition logging_issue : string := "Binary make use of Logging Function".

(** The severity rule the findings of the module have: the logging
    finding is the exception. *)
Definition severity_rule (f : Finding) : Prop :=
  (status f = SECURE \/ status f = INFO ->
   (cvss f == 0)%Q \/ issue f = logging_issue) /\
  ((0 < cvss f)%Q ->
   status f = IN_SECURE \/ status f = WARNING \/ issue f = logging_issue) /\
  (issue f = logging_issue -> status f = INFO /\ (cvss f == 7.5)%Q).

(** An event that reaches outside the process: running a utility,
    parsing the header, extracting strings, changing or writing a file. *)
Definition touches_executable (ev : event) : bool :=
  match ev with
  | Log _ _ | ListDir _ => false
  | ReadHeader _ | Exec _ | Chmod _ | WriteFile _ _ | ExtractStrings _ => true
  end.

(** The report of a run that found nothing to analyze. *)
Definition empty_report : Report :=
  {| libs := PyList [];
     bin_res := [];
     strings := Some [];
     macho := None;
     bin_type := None |}.

(** The dump that [class_dump] ends up with when every step succeeds: one
    rule for each path through the selection of the utility and the
    fail-safe retry. *)
Inductive yields_dump (E : Env) (tools_dir bin_path bin_type : string)
  : bytes -> Prop :=
| dump_linux : forall jtool_bin out,
    platform_system E = "Linux" ->
    jtool_bin = (if configured E (JTOOL_BINARY E) then JTOOL_BINARY E
                 else os_path_join E tools_dir "jtool.ELF64") ->
    os_chmod E jtool_bin = true ->
    check_output E [jtool_bin; "-arch"; "arm"; "-d"; "objc"; "-v"; bin_path]
      = Some out ->
    yields_dump E tools_dir bin_path bin_type out
| dump_darwin : forall class_dump_bin out,
    platform_system E = "Darwin" ->
    class_dump_bin =
      (if bin_type =? "Swift"
       then if configured E (CLASSDUMP_SWIFT_BINARY E)
            then CLASSDUMP_SWIFT_BINARY E
            else os_path_join E tools_dir "class-dump-swift"
       else if configured E (CLASSDUMPZ_BINARY E)
            then CLASSDUMPZ_BINARY E
            else os_path_join E tools_dir "class-dump-z") ->
    os_chmod E class_dump_bin = true ->
    check_output E [class_dump_bin; bin_path] = Some out ->
    contains "Source: (null)" out = false ->
    yields_dump E tools_dir bin_path bin_type out
| dump_darwin_retry : forall class_dump_bin out out',
    platform_system E = "Darwin" ->
    class_dump_bin =
      (if bin_type =? "Swift"
       then if configured E (CLASSDUMP_SWIFT_BINARY E)
            then CLASSDUMP_SWIFT_BINARY E
            else os_path_join E tools_dir "class-dump-swift"
       else if configured E (CLASSDUMPZ_BINARY E)
            then CLASSDUMPZ_BINARY E
            else os_path_join E tools_dir "class-dump-z") ->
    os_chmod E class_dump_bin = true ->
    check_output E [class_dump_bin; bin_path] = Some out ->
    contains "Source: (null)" out = true ->
    check_output E [os_path_join E tools_dir "class-dump-swift"; bin_path]
      = Some out' ->
    yields_dump E tools_dir bin_path bin_type out'.

(** The title of the finding that the weak-crypto block would build. *)
Definition weak_crypto_issue : string :=
  "Binary make use of some Weak Crypto API(s)".

(** The eight token categories other than weak crypto, each with the
    title of its finding and its pattern. *)
Definition token_categories : list (string * pattern) :=
  [("Binary make use of banned API(s)", banned_pattern);
   ("Binary make use of the following Crypto API(s)", crypto_pattern);
   ("Binary make use of the following Weak HASH API(s)", weak_hash_pattern);
   ("Binary make use of the following HASH API(s)", hash_pattern);
   ("Binary make use of the insecure Random Function(s)", random_pattern);
   ("Binary make use of Logging Function", log_pattern);
   ("Binary make use of malloc Function", malloc_pattern);
   ("Binary calls ptrace Function for anti-debugging.", ptrace_pattern)].

(** The web-view finding. *)
Definition webview_finding : Finding :=
  {| issue := "Binary uses WebView Component.";
     status := INFO;
     description := "The binary may use WebView Component.";
     cvss := 0;
     cwe := "" |}.

(* ================================================================== *)
(** * Further notions: paths, tools, reports *)

(** Lines 451 to 463 of [binary_analysis]: the bundle directory found in
    the listing, the directory and the name of the executable, and the
    path that is probed. *)
Definition dot_app_dir_of (dirs : list string) : string :=
  match find (fun dir_ => endswith dir_ ".app") dirs with
  | Some dir_ => dir_
  | None => ""
  end.

Definition bin_dir_of (E : Env) (src : string) (dirs : list string) : string :=
  os_path_join E src (dot_app_dir_of dirs).

Definition bin_name_of (executable_name : option string) (dirs : list string)
  : string :=
  match executable_name with
  | None => replace ".app" "" (dot_app_dir_of dirs)
  | Some name => name
  end.

Definition bin_path_of (E : Env) (src : string)
    (executable_name : option string) (dirs : list string) : string :=
  os_path_join E (bin_dir_of E src dirs) (bin_name_of executable_name dirs).

(** The report that lines 478 to 484 of [binary_analysis] assemble from
    the results of the phases. *)
Definition full_report (l : list str) (od : otool_dict)
    (cd : option finding_dict) (strs : option (list str))
    (bi : option BinInfo) : Report :=
  {| libs := PyList l;
     bin_res := (filter_truthy (anal od) ++
                 match cd with Some (Some f) => [f] | _ => [] end)%list;
     strings := strs;
     macho := Some bi;
     bin_type := Some (detect_bin_type l) |}.

(** The utilities that [get_otool_out] resolves (lines 31 to 40). *)
Definition otool_bin_of (E : Env) : string :=
  if configured E (OTOOL_BINARY E) then OTOOL_BINARY E else "otool".

Definition jtool_bin_of (E : Env) (tools_dir : string) : string :=
  if configured E (JTOOL_BINARY E) then JTOOL_BINARY E
  else os_path_join E tools_dir "jtool.ELF64".

(** The command that [class_dump] builds first (lines 358 to 385 of
    the source); there is none on a platform that is not supported. *)
Definition class_dump_args (E : Env) (tools_dir bin_path bin_type : string)
  : option (list string) :=
  if platform_system E =? "Darwin" then
    Some [if bin_type =? "Swift"
          then if configured E (CLASSDUMP_SWIFT_BINARY E)
               then CLASSDUMP_SWIFT_BINARY E
               else os_path_join E tools_dir "class-dump-swift"
          else if configured E (CLASSDUMPZ_BINARY E)
               then CLASSDUMPZ_BINARY E
               else os_path_join E tools_dir "class-dump-z";
          bin_path]
  else if platform_system E =? "Linux" then
    Some [jtool_bin_of E tools_dir; "-arch"; "arm"; "-d"; "objc"; "-v"; bin_path]
  else None.

(** A fault inside [class_dump]: one of the four steps of its [try]
    block that can raise does so.  The utility cannot be made
    executable; the utility fails; the fail-safe retry fails; or the
    dump cannot be written to [classdump.txt]. *)
Inductive class_dump_fault (E : Env) (tools_dir bin_path app_dir bin_type : string)
  : Prop :=
| fault_chmod : forall tool rest,
    class_dump_args E tools_dir bin_path bin_type = Some (tool :: rest) ->
    os_chmod E tool = false ->
    class_dump_fault E tools_dir bin_path app_dir bin_type
| fault_utility : forall tool rest,
    class_dump_args E tools_dir bin_path bin_type = Some (tool :: rest) ->
    os_chmod E tool = true ->
    check_output E (tool :: rest) = None ->
    class_dump_fault E tools_dir bin_path app_dir bin_type
| fault_retry : forall tool rest out,
    class_dump_args E tools_dir bin_path bin_type = Some (tool :: rest) ->
    os_chmod E tool = true ->
    check_output E (tool :: rest) = Some out ->
    contains "Source: (null)" out = true ->
    platform_system E = "Darwin" ->
    check_output E [os_path_join E tools_dir "class-dump-swift"; bin_path] = None ->
    class_dump_fault E tools_dir bin_path app_dir bin_type
| fault_write : forall dump,
    yields_dump E tools_dir bin_path bin_type dump ->
    write_text E (os_path_join E app_dir "classdump.txt") (decode_ignore E dump)
      = false ->
    class_dump_fault E tools_dir bin_path app_dir bin_type.

(** What [class_dump] logs when its [try] block raised. *)
Definition class_dump_failed : event :=
  Log "ERROR" "class-dump-z/class-dump-swift failed on this binary".

(** What [strings_on_ipa] logs when its [try] block raised. *)
Definition strings_failed : event :=
  Log "ERROR" "Running strings against the Binary".

(** The three kinds of evidence that [get_otool_out] knows. *)
Definition evidence_kinds : list string := ["libs"; "header"; "symbols"].

(** A hardening finding: Secure with severity 0 and no classification
    when the indicator is present, Insecure with severity 2 and CWE-119
    when it is not. *)
Definition hardening_flag (f : Finding) (present : Prop) : Prop :=
  (present -> status f = SECURE /\ (cvss f == 0)%Q /\ cwe f = "") /\
  (~ present -> status f = IN_SECURE /\ (cvss f == 2)%Q /\ cwe f = "CWE-119").

(** The fixed status, severity and weakness classification of each of
    the eight token categories, by the title of its finding. *)
Definition token_category_ratings : list (string * (string * Q * string)) :=
  [("Binary make use of banned API(s)", (IN_SECURE, 6%Q, "CWE-676"));
   ("Binary make use of the following Crypto API(s)", (INFO, 0%Q, ""));
   ("Binary make use of the following Weak HASH API(s)",
    (IN_SECURE, 3%Q, "CWE-327"));
   ("Binary make use of the following HASH API(s)", (INFO, 0%Q, ""));
   ("Binary make use of the insecure Random Function(s)",
    (IN_SECURE, 3%Q, "CWE-338"));
   ("Binary make use of Logging Function", (INFO, 7.5%Q, "CWE-532"));
   ("Binary make use of malloc Function", (IN_SECURE, 2%Q, "CWE-789"));
   ("Binary calls ptrace Function for anti-debugging.", (WARNING, 0%Q, ""))].

(** Kinds of events. *)
Definition runs_tool (ev : event) : bool :=
  match ev with
  | Exec _ | Chmod _ | WriteFile _ _ | ExtractStrings _ => true
  | Log _ _ | ListDir _ | ReadHeader _ => false
  end.

Definition is_exec (ev : event) : bool :=
  match ev with Exec _ => true | _ => false end.

Definition is_write (ev : event) : bool :=
  match ev with WriteFile _ _ => true | _ => false end.

(** More hosts: one whose executable has two slices, one whose
    executable does not parse, one without utilities, one whose strings
    helper lists the same strings in another order, and a Linux host. *)
Definition arm64_header : Header :=
  {| MH_MAGIC := 0xfeedfacf; h_endian := "<"; h_cputype := 16777228;
     h_cpusubtype := 0 |}.

Definition fat_binary : Env :=
  host "Darwin" ["/Payload/Demo.app/Demo"]
       (tools "/usr/lib/libSystem.B.dylib" "MH_MAGIC ARM V7 PIE" "" "")
       true (Some []) (Some [arm64_header; arm_header]).

Definition unparsable : Env :=
  host "Darwin" ["/Payload/Demo.app/Demo"]
       (tools "/usr/lib/libSystem.B.dylib" "MH_MAGIC ARM V7 PIE" "" "")
       true (Some []) None.

Definition no_tools : Env :=
  host "Darwin" ["/Payload/Demo.app/Demo"] (fun _ => None)
       true (Some []) (Some [arm_header]).

Definition reordered : Env :=
  host "Darwin" ["/Payload/Demo.app/Demo"]
       (tools "/usr/lib/libSystem.B.dylib" "MH_MAGIC ARM V7 PIE" "" "")
       true (Some ["a<b"; "b"; "a<b"; "a<b"]) (Some [arm_header]).

Definition linux (symbols classdump : bytes) : Env :=
  host "Linux" ["/Payload/Demo.app/Demo"]
       (tools "/Payload/Demo.app/Frameworks/libswiftCore.dylib" "MH_MAGIC ARM"
              symbols classdump)
       true (Some []) (Some [arm_header]).

(* ================================================================== *)
(** * The model on concrete inputs *)

(** The matcher on the inputs on which the [re] module of Python 3 gives
    these very lists. *)
Example findall_rc4 :
  findall weak_crypto_pattern "xkCCAlgorithmRC4y"
  = [""; ""; "kCCAlgorithmRC4"; ""; ""].
Proof. reflexivity. Qed.

Example findall_3des_ecb :
  findall weak_crypto_pattern "kCCAlgorithm3DES kCCOptionECBMode"
  = ["kCCAlgorithm3DES"; ""; ""; "kCCOptionECBMode"; ""].
Proof. reflexivity. Qed.

Example findall_empty_text : findall weak_crypto_pattern "" = [""].
Proof. reflexivity. Qed.

Example findall_leftmost_first :
  findall ["CC_MD2_Init"; "CC_MD2"] "xCC_MD2_InitCC_MD2CC_MD2_I"
  = ["CC_MD2_Init"; "CC_MD2"; "CC_MD2"].
Proof. reflexivity. Qed.

Example replace_app : replace ".app" "" "Demo.app" = "Demo".
Proof. reflexivity. Qed.

Example replace_leftmost : replace "ab" "X" "abcababa" = "XcXXa".
Proof. reflexivity. Qed.

Example split_lines :
  split newline ("a" ++ String newline ("b" ++ String newline ""))
  = ["a"; "b"; ""].
Proof. reflexivity. Qed.

Example detect_objective_c :
  detect_bin_type ["/usr/lib/libSystem.B.dylib"; "/usr/lib/libobjc.A.dylib"]
  = "Objective C".
Proof. reflexivity. Qed.

(** A complete run on a macOS host. *)
Example full_run_issues :
  match result (binary_analysis
                  (darwin "_ptrace _NSLog ___stack_chk_guard" "UIWebView")
                  "/Payload" "/tools" "/work" None) with
  | Ok (Some r) =>
      libs r = PyList ["/usr/lib/libSystem.B.dylib"] /\
      map issue (bin_res r) =
        ["fPIE -pie flag is Found"; "fstack-protector-all flag is Found";
         "fobjc-arc flag is not Found"; "Binary make use of Logging Function";
         "Binary calls ptrace Function for anti-debugging.";
         "Binary uses WebView Component."] /\
      strings r = Some ["a&lt;b"; "b"] /\
      bin_type r = Some "Objective C"
  | _ => False
  end.
Proof. vm_compute. repeat split. Qed.

Example full_run_trace :
  trace (binary_analysis
           (darwin "_ptrace _NSLog ___stack_chk_guard" "UIWebView")
           "/Payload" "/tools" "/work" None)
  = [Log "INFO" "Starting Binary Analysis"; ListDir "/Payload";
     Log "INFO" "Getting Binary Information";
     ReadHeader "/Payload/Demo.app/Demo";
     Log "INFO" "Running Object Analysis of Binary : Demo";
     Exec ["otool"; "-L"; "/Payload/Demo.app/Demo"];
     Exec ["otool"; "-hv"; "/Payload/Demo.app/Demo"];
     Exec ["otool"; "-Iv"; "/Payload/Demo.app/Demo"];
     Log "INFO" "Dumping classes";
     Log "INFO" "Running class-dump-z aganst binary";
     Chmod "/tools/class-dump-z";
     Exec ["/tools/class-dump-z"; "/Payload/Demo.app/Demo"];
     WriteFile "/work/classdump.txt" "UIWebView";
     Log "INFO" "Running strings against the Binary";
     ExtractStrings "/Payload/Demo.app/Demo"].
Proof. reflexivity. Qed.

(* ================================================================== *)
(** * String facts *)

Lemma prefix_occurs (p s : string) :
  prefix p s = true <-> exists t, s = p ++ t.
Proof.
  revert s. induction p as [|a p IH]; intros s; simpl.
  - split; [intros _; now exists s | reflexivity].
  - destruct s as [|b s].
    + split; [discriminate | intros [t Ht]; discriminate].
    + rewrite andb_true_iff, Ascii.eqb_eq, IH. split.
      * intros [-> [t ->]]. now exists t.
      * intros [t Ht]. injection Ht as -> ->. split; [reflexivity | now exists t].
Qed.

Lemma prefix_refl_app (p t : string) : prefix p (p ++ t) = true.
Proof. apply prefix_occurs. now exists t. Qed.

Lemma contains_unfold (needle s : string) :
  contains needle s =
  prefix needle s ||
  match s with EmptyString => false | String _ s' => contains needle s' end.
Proof. destruct s; reflexivity. Qed.

(** The boolean test [needle in s] decides occurrence. *)
Lemma contains_occurs (needle s : string) :
  contains needle s = true <-> occurs_in needle s.
Proof.
  unfold occurs_in. induction s as [|c s IH].
  - simpl. rewrite orb_false_r, prefix_occurs. split.
    + intros [t Ht]. now exists "", t.
    + intros [pre [post H]]. destruct pre; [now exists post | discriminate].
  - rewrite contains_unfold, orb_true_iff, prefix_occurs, IH. split.
    + intros [[t Ht] | [pre [post H]]].
      * now exists "", t.
      * exists (String c pre), post. simpl. now rewrite H.
    + intros [pre [post H]]. destruct pre as [|c' pre].
      * left. now exists post.
      * right. simpl in H. injection H as _ H. now exists pre, post.
Qed.

Lemma contains_prefix (needle s : string) :
  prefix needle s = true -> contains needle s = true.
Proof. intros H. rewrite contains_unfold, H. reflexivity. Qed.

Lemma contains_tail (needle : string) (c : ascii) (s : string) :
  contains needle s = true -> contains needle (String c s) = true.
Proof. intros H. rewrite contains_unfold, H. apply orb_true_r. Qed.

(* ================================================================== *)
(** * Monad facts *)

Lemma result_bind {A B} (m : M A) (k : A -> M B) :
  result (bind m k) =
  match result m with
  | Ok a => result (k a)
  | Raise e => Raise e
  end.
Proof.
  destruct m as [[a|e] t]; simpl; [|reflexivity].
  destruct (k a); reflexivity.
Qed.

Lemma trace_bind {A B} (m : M A) (k : A -> M B) :
  trace (bind m k) =
  (trace m ++ match result m with
              | Ok a => trace (k a)
              | Raise _ => []
              end)%list.
Proof.
  destruct m as [[a|e] t]; simpl.
  - destruct (k a); reflexivity.
  - now rewrite app_nil_r.
Qed.

Lemma result_try_except {A} (body : M A) (handler : exn -> M A) :
  result (try_except body handler) =
  match result body with
  | Ok a => Ok a
  | Raise e => result (handler e)
  end.
Proof.
  destruct body as [[a|e] t]; simpl; [reflexivity|].
  destruct (handler e); reflexivity.
Qed.

Lemma trace_try_except {A} (body : M A) (handler : exn -> M A) :
  trace (try_except body handler) =
  (trace body ++ match result body with
                 | Ok _ => []
                 | Raise e => trace (handler e)
                 end)%list.
Proof.
  destruct body as [[a|e] t]; simpl.
  - now rewrite app_nil_r.
  - destruct (handler e); reflexivity.
Qed.

(** A successful bind: both halves succeeded. *)
Lemma bind_Ok_inv {A B} (m : M A) (k : A -> M B) (b : B) :
  result (bind m k) = Ok b ->
  exists a, result m = Ok a /\ result (k a) = Ok b.
Proof.
  rewrite result_bind. destruct (result m) as [a|e]; [|discriminate].
  intros H. now exists a.
Qed.

Lemma bind_Raise {A B} (m : M A) (k : A -> M B) (e : exn) :
  result m = Raise e -> result (bind m k) = Raise e.
Proof. intros H. now rewrite result_bind, H. Qed.

Lemma bind_Ok {A B} (m : M A) (k : A -> M B) (a : A) :
  result m = Ok a -> result (bind m k) = result (k a).
Proof. intros H. now rewrite result_bind, H. Qed.

(** A handler that only logs and returns turns every exception into a
    value: the block never raises. *)
Lemma try_except_total {A} (body : M A) (msg : M unit) (dflt : A) :
  result msg = Ok tt ->
  exists v, result (try_except body (fun _ => msg ;; ret dflt)) = Ok v.
Proof.
  intros Hm. rewrite result_try_except.
  destruct (result body) as [a|e].
  - now exists a.
  - exists dflt. now rewrite result_bind, Hm.
Qed.

(** Unfolds the monad operations and the wrappers of the environment,
    leaving the calls to the environment itself in place. *)
Ltac run_monad :=
  cbv beta iota zeta delta
    [result trace fst snd bind ret raise emit try_except
     logger_info logger_warning logger_error logger_exception
     listdir chmod subprocess_check_output write_file MachO run_strings_util
     py_in re_findall subscript call_detect_bin_type str_formnat
     negb app].

(* ================================================================== *)
(** * Binary type classification *)

Lemma existsb_contains (needle : string) (l : list string) :
  existsb (fun itm => contains needle itm) l = true <->
  exists itm, In itm l /\ occurs_in needle itm.
Proof.
  rewrite existsb_exists. split; intros [itm [Hin H]]; exists itm; split; auto;
    now apply contains_occurs.
Qed.

(** C5.  [detect_bin_type] answers ['Swift'] exactly when some entry of
    the library list contains the name of the Swift standard runtime
    library, wherever that entry stands and whatever else the list holds;
    in every other case it answers ['Objective C']. *)
Theorem detect_bin_type_swift_iff (libs : list str) :
  (detect_bin_type libs = "Swift" <->
   exists itm, In itm libs /\ occurs_in swift_runtime itm) /\
  (detect_bin_type libs = "Objective C" <->
   ~ exists itm, In itm libs /\ occurs_in swift_runtime itm) /\
  (forall before after itm,
     libs = (before ++ itm :: after)%list -> occurs_in swift_runtime itm ->
     detect_bin_type libs = "Swift").
Proof.
  assert (Hiff : detect_bin_type libs = "Swift" <->
                 exists itm, In itm libs /\ occurs_in swift_runtime itm).
  { rewrite <- existsb_contains. unfold detect_bin_type, swift_runtime.
    destruct (existsb (fun itm => contains "libswiftCore.dylib" itm) libs);
      split; intros H; try reflexivity; discriminate. }
  split; [exact Hiff|]. split.
  - rewrite <- Hiff. unfold detect_bin_type.
    destruct (existsb (fun itm => contains "libswiftCore.dylib" itm) libs);
      split; intros H; try reflexivity; try discriminate;
      try (exfalso; now apply H); try (intros H'; discriminate).
  - intros before after itm -> Hocc. apply Hiff. exists itm. split; [|exact Hocc].
    apply in_or_app. right. now left.
Qed.

Lemma detect_bin_type_swift_iff_witness :
  detect_bin_type ["/Frameworks/libswiftCore.dylib";
                   "/Frameworks/Foundation.framework"] = "Swift" /\
  detect_bin_type ["/Frameworks/Foundation.framework";
                   "/usr/lib/swift/libswiftCore.dylib"] = "Swift".
Proof.
  split.
  - apply (proj2 (proj2 (detect_bin_type_swift_iff _)) [] _ _ eq_refl).
    exists "/Frameworks/", "". reflexivity.
  - apply (proj2 (proj2 (detect_bin_type_swift_iff _))
             ["/Frameworks/Foundation.framework"] [] _ eq_refl).
    exists "/usr/lib/swift/", "". reflexivity.
Defined.

(* ================================================================== *)
(** * String extraction *)

Lemma strings_on_ipa_failure (E : Env) (bin_path : string) :
  strings_util E bin_path = None ->
  result (strings_on_ipa E bin_path) = Ok None.
Proof.
  intros H. unfold strings_on_ipa, run_strings_util.
  rewrite result_try_except, !result_bind. simpl. now rewrite H.
Qed.

Lemma strings_on_ipa_success (E : Env) (bin_path : string) (found : list str) :
  strings_util E bin_path = Some found ->
  result (strings_on_ipa E bin_path) =
  Ok (Some (map (escape E) (set_iter E found))).
Proof.
  intros H. unfold strings_on_ipa, run_strings_util.
  rewrite result_try_except, !result_bind. simpl. now rewrite H.
Qed.

Lemma strings_on_ipa_total (E : Env) (bin_path : string) :
  exists v, result (strings_on_ipa E bin_path) = Ok v.
Proof. apply try_except_total. reflexivity. Qed.

(** C9, as stated, fails: when the strings helper raises,
    [strings_on_ipa] returns [None], not an empty list. *)
Lemma strings_on_ipa_failure_is_not_empty_list :
  strings_util no_strings "/Payload/Demo.app/Demo" = None /\
  result (strings_on_ipa no_strings "/Payload/Demo.app/Demo") = Ok None /\
  result (strings_on_ipa no_strings "/Payload/Demo.app/Demo") <> Ok (Some []).
Proof. repeat split. discriminate. Qed.

(** The handler of [strings_on_ipa] logs the exception, and nothing
    else logs at that level. *)
Lemma strings_on_ipa_trace (E : Env) (bin_path : string) :
  trace (strings_on_ipa E bin_path) =
  (Log "INFO" "Running strings against the Binary" :: ExtractStrings bin_path ::
   match strings_util E bin_path with
   | Some _ => []
   | None => [strings_failed]
   end)%list.
Proof.
  unfold strings_on_ipa, strings_failed. run_monad.
  now destruct (strings_util E bin_path).
Qed.

(** C9, amended.  [strings_on_ipa] never propagates an error.  When the
    strings helper raises, the function logs the exception and returns
    the absent value [None].  When the helper succeeds, the function
    returns the extracted strings with duplicates removed, each
    HTML-escaped, and logs no exception. *)
Theorem strings_on_ipa_fails_to_None (E : Env) (bin_path : string) :
  (exists v, result (strings_on_ipa E bin_path) = Ok v) /\
  (strings_util E bin_path = None ->
   result (strings_on_ipa E bin_path) = Ok None /\
   last (trace (strings_on_ipa E bin_path)) (ExtractStrings bin_path)
     = strings_failed) /\
  (forall found, strings_util E bin_path = Some found ->
   (exists unique_str,
      NoDup unique_str /\
      (forall s, In s unique_str <-> In s found) /\
      result (strings_on_ipa E bin_path) =
        Ok (Some (map (escape E) unique_str))) /\
   ~ In strings_failed (trace (strings_on_ipa E bin_path))).
Proof.
  split; [apply strings_on_ipa_total|]. rewrite strings_on_ipa_trace. split.
  - intros H. split; [now apply strings_on_ipa_failure|]. now rewrite H.
  - intros found H. split.
    + exists (set_iter E found). split; [apply set_iter_NoDup|].
      split; [apply set_iter_In|]. now apply strings_on_ipa_success.
    + rewrite H. cbn [In]. unfold strings_failed.
      intros [Hin | [Hin | []]]; discriminate Hin.
Qed.

Lemma strings_on_ipa_fails_to_None_witness :
  (result (strings_on_ipa no_strings "/Payload/Demo.app/Demo") = Ok None /\
   last (trace (strings_on_ipa no_strings "/Payload/Demo.app/Demo"))
        (ExtractStrings "/Payload/Demo.app/Demo") = strings_failed) /\
  (exists unique_str,
     NoDup unique_str /\
     (forall s, In s unique_str <-> In s ["b"; "a<b"; "b"]) /\
     result (strings_on_ipa (darwin "" "") "/Payload/Demo.app/Demo") =
       Ok (Some (map html_escape unique_str))) /\
  ~ In strings_failed (trace (strings_on_ipa (darwin "" "") "/Payload/Demo.app/Demo")).
Proof.
  split.
  - apply (proj1 (proj2 (strings_on_ipa_fails_to_None no_strings _))).
    reflexivity.
  - apply (proj2 (proj2 (strings_on_ipa_fails_to_None (darwin "" "") _))
             ["b"; "a<b"; "b"]).
    reflexivity.
Defined.

(* ================================================================== *)
(** * The missing executable *)

(** C6.  When the directory listing succeeds and the resolved executable
    path does not exist, [binary_analysis] returns a report, not an
    error: its libraries, findings and strings are empty, and the run
    performs nothing but logging and the one directory listing: no
    utility is invoked, no header is read, no strings are extracted. *)
Theorem binary_analysis_missing_executable
    (E : Env) (src tools_dir app_dir : string)
    (executable_name : option string) (dirs : list string) :
  os_listdir E src = Some dirs ->
  (let dot_app_dir :=
     match find (fun dir_ => endswith dir_ ".app") dirs with
     | Some dir_ => dir_
     | None => ""
     end in
   let bin_dir := os_path_join E src dot_app_dir in
   let bin_name :=
     match executable_name with
     | None => replace ".app" "" dot_app_dir
     | Some name => name
     end in
   is_file_exists E (os_path_join E bin_dir bin_name) = false) ->
  result (binary_analysis E src tools_dir app_dir executable_name)
    = Ok (Some empty_report) /\
  libs empty_report = PyList [] /\
  bin_res empty_report = [] /\
  strings empty_report = Some [] /\
  forallb (fun ev => negb (touches_executable ev))
          (trace (binary_analysis E src tools_dir app_dir executable_name))
    = true.
Proof.
  intros Hdirs Hmissing. cbv zeta in Hmissing.
  unfold binary_analysis. run_monad. rewrite Hdirs. run_monad.
  rewrite Hmissing. run_monad. repeat split.
Qed.

Lemma binary_analysis_missing_executable_witness :
  result (binary_analysis empty_bundle "/Payload" "/tools" "/work" None)
    = Ok (Some empty_report) /\
  forallb (fun ev => negb (touches_executable ev))
          (trace (binary_analysis empty_bundle "/Payload" "/tools" "/work" None))
    = true.
Proof.
  destruct (binary_analysis_missing_executable
              empty_bundle "/Payload" "/tools" "/work" None
              ["Info.plist"; "Demo.app"] eq_refl eq_refl)
    as [Hres [_ [_ [_ Htrace]]]].
  split; [exact Hres | exact Htrace].
Defined.

(* ================================================================== *)
(** * Class metadata extraction *)

Lemma class_dump_of_dump
    (E : Env) (tools_dir bin_path app_dir bin_type : string) (dump : bytes) :
  yields_dump E tools_dir bin_path bin_type dump ->
  result (class_dump E tools_dir bin_path app_dir bin_type) =
  if write_text E (os_path_join E app_dir "classdump.txt") (decode_ignore E dump)
  then Ok (Some (if contains "UIWebView" dump then Some webview_finding else None))
  else Ok None.
Proof.
  intros Hdump. unfold class_dump.
  destruct Hdump as [jtool_bin out Hplat Hbin Hchmod Hout
                    | class_dump_bin out Hplat Hbin Hchmod Hout Hsrc
                    | class_dump_bin out out' Hplat Hbin Hchmod Hout Hsrc Hout'].
  - rewrite Hplat. change ("Linux" =? "Darwin") with false.
    change ("Linux" =? "Linux") with true. rewrite <- Hbin.
    run_monad. rewrite Hchmod. run_monad. rewrite Hout. run_monad.
    rewrite andb_false_r. now destruct (write_text E _ _).
  - rewrite Hplat. change ("Darwin" =? "Darwin") with true.
    subst class_dump_bin.
    destruct (bin_type =? "Swift"); run_monad; rewrite Hchmod; run_monad;
      rewrite Hout; run_monad; rewrite Hsrc; cbn [andb];
      now destruct (write_text E _ _).
  - rewrite Hplat. change ("Darwin" =? "Darwin") with true.
    subst class_dump_bin.
    destruct (bin_type =? "Swift"); run_monad; rewrite Hchmod; run_monad;
      rewrite Hout; run_monad; rewrite Hsrc; cbn [andb]; rewrite Hout';
      now destruct (write_text E _ _).
Qed.

Lemma class_dump_total (E : Env) (tools_dir bin_path app_dir bin_type : string) :
  exists v, result (class_dump E tools_dir bin_path app_dir bin_type) = Ok v.
Proof. apply try_except_total. reflexivity. Qed.

(** What [class_dump] can return: nothing, the empty dictionary, or the
    web-view finding. *)
Lemma class_dump_finding
    (E : Env) (tools_dir bin_path app_dir bin_type : string) (f : Finding) :
  result (class_dump E tools_dir bin_path app_dir bin_type) = Ok (Some (Some f)) ->
  f = webview_finding.
Proof.
  unfold class_dump. rewrite result_try_except.
  destruct (result _) as [v|e] eqn:Hbody; [|discriminate].
  intros Hv. injection Hv as ->.
  apply bind_Ok_inv in Hbody. destruct Hbody as [args [_ Hbody]].
  destruct args as [args|]; [|discriminate].
  apply bind_Ok_inv in Hbody. destruct Hbody as [d1 [_ Hbody]].
  apply bind_Ok_inv in Hbody. destruct Hbody as [d2 [_ Hbody]].
  apply bind_Ok_inv in Hbody. destruct Hbody as [u [_ Hbody]].
  cbv beta iota zeta delta [result ret fst] in Hbody.
  destruct (contains "UIWebView" d2); [|discriminate].
  now injection Hbody as <-.
Qed.

Lemma class_dump_args_tool
    (E : Env) (tools_dir bin_path bin_type : string) (args : list string) :
  class_dump_args E tools_dir bin_path bin_type = Some args ->
  exists tool rest, args = tool :: rest.
Proof.
  unfold class_dump_args.
  destruct (platform_system E =? "Darwin"); [intros H; injection H as <-; eauto|].
  destruct (platform_system E =? "Linux"); [intros H; injection H as <-; eauto|].
  discriminate.
Qed.

(** [class_dump] in terms of its first command. *)
Lemma class_dump_unfold
    (E : Env) (tools_dir bin_path app_dir bin_type : string) :
  result (class_dump E tools_dir bin_path app_dir bin_type) =
  match class_dump_args E tools_dir bin_path bin_type with
  | None => Ok (Some None)
  | Some args =>
      if os_chmod E (hd "" args) then
        match check_output E args with
        | None => Ok None
        | Some out =>
            let retry := contains "Source: (null)" out
                         && (platform_system E =? "Darwin") in
            match (if retry
                   then check_output E
                          [os_path_join E tools_dir "class-dump-swift"; bin_path]
                   else Some out) with
            | None => Ok None
            | Some dump =>
                if write_text E (os_path_join E app_dir "classdump.txt")
                                (decode_ignore E dump)
                then Ok (Some (if contains "UIWebView" dump
                               then Some webview_finding else None))
                else Ok None
            end
        end
      else Ok None
  end.
Proof.
  unfold class_dump, class_dump_args, jtool_bin_of.
  destruct (platform_system E =? "Darwin").
  - destruct (bin_type =? "Swift"); run_monad; cbn [hd];
      (destruct (os_chmod E _); run_monad; [|reflexivity]);
      (destruct (check_output E _) as [out|]; run_monad; [|reflexivity]);
      rewrite andb_true_r;
      (destruct (contains "Source: (null)" out); run_monad;
       [destruct (check_output E _) as [out'|]; run_monad; [|reflexivity]|]);
      now destruct (write_text E _ _).
  - destruct (platform_system E =? "Linux"); run_monad; [|reflexivity].
    cbn [hd].
    (destruct (os_chmod E _); run_monad; [|reflexivity]).
    (destruct (check_output E _) as [out|]; run_monad; [|reflexivity]).
    rewrite andb_false_r. now destruct (write_text E _ _).
Qed.

(** [class_dump] returns the absent result exactly when a step of its
    [try] block raised. *)
Lemma class_dump_fault_iff
    (E : Env) (tools_dir bin_path app_dir bin_type : string) :
  class_dump_fault E tools_dir bin_path app_dir bin_type <->
  result (class_dump E tools_dir bin_path app_dir bin_type) = Ok None.
Proof.
  rewrite class_dump_unfold. split.
  - intros [tool rest Hargs Hchmod
           | tool rest Hargs Hchmod Hout
           | tool rest out Hargs Hchmod Hout Hsrc Hplat Hout'
           | dump Hdump Hwrite].
    + rewrite Hargs. cbn [hd]. now rewrite Hchmod.
    + rewrite Hargs. cbn [hd]. now rewrite Hchmod, Hout.
    + rewrite Hargs. cbn [hd]. rewrite Hchmod, Hout, Hsrc, Hplat.
      change ("Darwin" =? "Darwin") with true. cbn [andb]. cbv zeta.
      now rewrite Hout'.
    + rewrite <- class_dump_unfold.
      rewrite (class_dump_of_dump _ _ _ app_dir _ _ Hdump). now rewrite Hwrite.
  - destruct (class_dump_args E tools_dir bin_path bin_type) as [args|] eqn:Hargs;
      [|discriminate].
    destruct (class_dump_args_tool _ _ _ _ _ Hargs) as [tool [rest ->]].
    cbn [hd].
    destruct (os_chmod E tool) eqn:Hchmod; [|intros _; eapply fault_chmod; eauto].
    destruct (check_output E (tool :: rest)) as [out|] eqn:Hout;
      [|intros _; eapply fault_utility; eauto].
    cbv zeta.
    destruct (contains "Source: (null)" out) eqn:Hsrc; cbn [andb].
    + destruct (String.eqb_spec (platform_system E) "Darwin") as [Hplat|Hplat].
      * destruct (check_output E [_; bin_path]) as [out'|] eqn:Hout';
          [|intros _; eapply fault_retry; eauto].
        destruct (write_text E _ _) eqn:Hwrite; [discriminate|].
        intros _. apply (fault_write _ _ _ _ _ out'); [|exact Hwrite].
        unfold class_dump_args in Hargs. rewrite Hplat in Hargs.
        change ("Darwin" =? "Darwin") with true in Hargs.
        injection Hargs as <- <-.
        eapply dump_darwin_retry; eauto.
      * destruct (write_text E _ _) eqn:Hwrite; [discriminate|].
        intros _. apply (fault_write _ _ _ _ _ out); [|exact Hwrite].
        unfold class_dump_args in Hargs.
        apply String.eqb_neq in Hplat. rewrite Hplat in Hargs.
        destruct (String.eqb_spec (platform_system E) "Linux") as [HL|HL];
          [|discriminate].
        injection Hargs as <- <-.
        eapply dump_linux; eauto.
    + destruct (write_text E _ _) eqn:Hwrite; [discriminate|].
      intros _. apply (fault_write _ _ _ _ _ out); [|exact Hwrite].
      unfold class_dump_args in Hargs.
      destruct (String.eqb_spec (platform_system E) "Darwin") as [Hplat|Hplat].
      * injection Hargs as <- <-.
        eapply dump_darwin; eauto.
      * destruct (String.eqb_spec (platform_system E) "Linux") as [HL|HL];
          [|discriminate].
        injection Hargs as <- <-.
        eapply dump_linux; eauto.
Qed.

(** The handler of [class_dump] logs the failure, and nothing else
    logs that message: the absent result and the error in the log go
    together. *)
Lemma class_dump_None_logged
    (E : Env) (tools_dir bin_path app_dir bin_type : string) :
  result (class_dump E tools_dir bin_path app_dir bin_type) = Ok None <->
  In class_dump_failed (trace (class_dump E tools_dir bin_path app_dir bin_type)).
Proof.
  unfold class_dump, class_dump_failed.
  destruct (platform_system E =? "Darwin");
    [destruct (bin_type =? "Swift")
    |destruct (platform_system E =? "Linux")];
    run_monad;
    try (destruct (os_chmod E _); run_monad);
    try (destruct (check_output E _) as [out|]; run_monad);
    try (destruct (contains "Source: (null)" out); cbn [andb]; run_monad);
    try (destruct (check_output E _) as [out'|]; run_monad);
    try (destruct (write_text E _ _); run_monad);
    cbn [In];
    (split; [intros H; first [discriminate H | tauto]
            |intros H; first [reflexivity
                             | exfalso;
                               repeat (destruct H as [H|H]; [discriminate H|]);
                               exact H]]).
Qed.

(** C8, as stated, fails: the utility delivers a dump that contains
    [UIWebView], but [classdump.txt] cannot be written; the fault is
    caught, and [class_dump] returns no finding. *)
Lemma webview_dump_unwritable_gives_no_finding :
  yields_dump (read_only "" "@interface Browser : UIWebView")
              "/tools" "/Payload/Demo.app/Demo" "Objective C"
              "@interface Browser : UIWebView" /\
  occurs_in "UIWebView" "@interface Browser : UIWebView" /\
  result (class_dump (read_only "" "@interface Browser : UIWebView")
                     "/tools" "/Payload/Demo.app/Demo" "/work" "Objective C")
    = Ok None /\
  ~ (exists f,
       result (class_dump (read_only "" "@interface Browser : UIWebView")
                          "/tools" "/Payload/Demo.app/Demo" "/work" "Objective C")
         = Ok (Some (Some f))).
Proof.
  split.
  { apply (dump_darwin _ _ _ _ "/tools/class-dump-z"); reflexivity. }
  split; [exists "@interface Browser : ", ""; reflexivity|].
  split; [reflexivity|]. intros [f Hf]. discriminate Hf.
Qed.

(** C8, amended.  Given a class-metadata dump (the selected utility ran
    and delivered it): when the dump contains [UIWebView] and is written
    to [classdump.txt] in the application directory, [class_dump]
    returns exactly one finding, the web-view finding, with status Info
    and severity 0; when the dump does not contain [UIWebView],
    [class_dump] returns no finding, and the empty dictionary if the
    dump is written; when the dump cannot be written, [class_dump]
    returns no finding but the absent result, and logs the failure,
    whatever the dump contains. *)
Theorem class_dump_flags_webview
    (E : Env) (tools_dir bin_path app_dir bin_type : string) (dump : bytes) :
  yields_dump E tools_dir bin_path bin_type dump ->
  (occurs_in "UIWebView" dump ->
   write_text E (os_path_join E app_dir "classdump.txt") (decode_ignore E dump)
     = true ->
   exists f,
     result (class_dump E tools_dir bin_path app_dir bin_type) = Ok (Some (Some f)) /\
     f = webview_finding /\
     status f = INFO /\ (cvss f == 0)%Q) /\
  (~ occurs_in "UIWebView" dump ->
   (forall f,
      result (class_dump E tools_dir bin_path app_dir bin_type) <> Ok (Some (Some f))) /\
   (write_text E (os_path_join E app_dir "classdump.txt") (decode_ignore E dump)
      = true ->
    result (class_dump E tools_dir bin_path app_dir bin_type) = Ok (Some None))) /\
  (write_text E (os_path_join E app_dir "classdump.txt") (decode_ignore E dump)
     = false ->
   result (class_dump E tools_dir bin_path app_dir bin_type) = Ok None /\
   In class_dump_failed (trace (class_dump E tools_dir bin_path app_dir bin_type))).
Proof.
  intros Hdump.
  pose proof (class_dump_None_logged E tools_dir bin_path app_dir bin_type) as Hlog.
  rewrite (class_dump_of_dump _ _ _ app_dir _ _ Hdump) in *.
  rewrite <- contains_occurs. split; [|split].
  - intros H Hwrite. rewrite Hwrite, H. exists webview_finding. repeat split.
  - intros H. destruct (contains "UIWebView" dump); [now elim H|]. split.
    + intros f. destruct (write_text E _ _); discriminate.
    + now intros ->.
  - intros Hwrite. rewrite Hwrite in *. split; [reflexivity|].
    now apply Hlog.
Qed.

Lemma class_dump_flags_webview_witness :
  (exists f,
     result (class_dump (darwin "" "@interface Browser : UIWebView")
                        "/tools" "/Payload/Demo.app/Demo" "/work" "Objective C")
       = Ok (Some (Some f)) /\
     f = webview_finding /\
     status f = INFO /\ (cvss f == 0)%Q) /\
  (forall f,
     result (class_dump (darwin "" "@interface Browser : WKWebView")
                        "/tools" "/Payload/Demo.app/Demo" "/work" "Objective C")
       <> Ok (Some (Some f))) /\
  (result (class_dump (read_only "" "@interface Browser : UIWebView")
                      "/tools" "/Payload/Demo.app/Demo" "/work" "Objective C")
     = Ok None /\
   In class_dump_failed
      (trace (class_dump (read_only "" "@interface Browser : UIWebView")
                         "/tools" "/Payload/Demo.app/Demo" "/work" "Objective C"))).
Proof.
  split; [|split].
  - apply (proj1 (class_dump_flags_webview
                    (darwin "" "@interface Browser : UIWebView")
                    "/tools" "/Payload/Demo.app/Demo" "/work" "Objective C"
                    "@interface Browser : UIWebView"
                    (dump_darwin (darwin "" "@interface Browser : UIWebView")
                       "/tools" "/Payload/Demo.app/Demo" "Objective C"
                       "/tools/class-dump-z" "@interface Browser : UIWebView"
                       eq_refl eq_refl eq_refl eq_refl eq_refl))).
    + exists "@interface Browser : ", "". reflexivity.
    + reflexivity.
  - apply (proj1 (proj2 (class_dump_flags_webview
                    (darwin "" "@interface Browser : WKWebView")
                    "/tools" "/Payload/Demo.app/Demo" "/work" "Objective C"
                    "@interface Browser : WKWebView"
                    (dump_darwin (darwin "" "@interface Browser : WKWebView")
                       "/tools" "/Payload/Demo.app/Demo" "Objective C"
                       "/tools/class-dump-z" "@interface Browser : WKWebView"
                       eq_refl eq_refl eq_refl eq_refl eq_refl)))).
    rewrite <- contains_occurs. discriminate.
  - apply (proj2 (proj2 (class_dump_flags_webview
                    (read_only "" "@interface Browser : UIWebView")
                    "/tools" "/Payload/Demo.app/Demo" "/work" "Objective C"
                    "@interface Browser : UIWebView"
                    (dump_darwin (read_only "" "@interface Browser : UIWebView")
                       "/tools" "/Payload/Demo.app/Demo" "Objective C"
                       "/tools/class-dump-z" "@interface Browser : UIWebView"
                       eq_refl eq_refl eq_refl eq_refl eq_refl)))).
    reflexivity.
Defined.

(* ================================================================== *)
(** * The scanner's bind chain *)

(** Splits a successful sequence into its successful steps. *)
Ltac bind_inv H :=
  let a := fresh "v" in
  let Ha := fresh "Hv" in
  apply bind_Ok_inv in H; destruct H as [a [Ha H]].

Lemma String_eqb_false (a b : string) : a <> b -> (a =? b) = false.
Proof. intros H. now apply String.eqb_neq. Qed.

(** On a host that is neither Darwin nor Linux, [get_otool_out] runs
    nothing and returns [None], whatever is asked. *)
Lemma get_otool_out_unsupported
    (E : Env) (tools_dir cmd_type bin_path bin_dir : string) :
  platform_system E <> "Darwin" -> platform_system E <> "Linux" ->
  get_otool_out E tools_dir cmd_type bin_path bin_dir = (Ok PyNone, []).
Proof.
  intros HD HL. unfold get_otool_out.
  rewrite (String_eqb_false _ _ HD), (String_eqb_false _ _ HL).
  destruct (cmd_type =? "libs"); [reflexivity|].
  destruct (cmd_type =? "header"); [reflexivity|].
  destruct (cmd_type =? "symbols"); reflexivity.
Qed.

(** The library evidence is a list, or it is absent together with the
    header evidence. *)
Lemma get_otool_out_libs_shape
    (E : Env) (tools_dir bin_path bin_dir : string) (v : tool_output) :
  result (get_otool_out E tools_dir "libs" bin_path bin_dir) = Ok v ->
  (exists l, v = PyList l) \/
  (v = PyNone /\
   result (get_otool_out E tools_dir "header" bin_path bin_dir) = Ok PyNone).
Proof.
  unfold get_otool_out.
  change ("libs" =? "libs") with true. change ("header" =? "libs") with false.
  change ("header" =? "header") with true. cbv iota.
  destruct (platform_system E =? "Darwin").
  - intros H. bind_inv H. injection H as <-. left. eauto.
  - destruct (platform_system E =? "Linux").
    + intros H. bind_inv H. injection H as <-. left. eauto.
    + intros H. injection H as <-. right. split; reflexivity.
Qed.

Lemma otool_analysis_Some
    (E : Env) (tools_dir bin_name bin_path bin_dir : string) (od : otool_dict) :
  result (otool_analysis E tools_dir bin_name bin_path bin_dir) = Ok (Some od) <->
  result (otool_analysis_try E tools_dir bin_name bin_path bin_dir) = Ok od.
Proof.
  unfold otool_analysis. rewrite result_try_except, result_bind.
  destruct (result (otool_analysis_try _ _ _ _ _)) as [d|e]; cbn.
  - split; intros H; injection H as ->; reflexivity.
  - split; discriminate.
Qed.

Lemma otool_analysis_None
    (E : Env) (tools_dir bin_name bin_path bin_dir : string) (e : exn) :
  result (otool_analysis_try E tools_dir bin_name bin_path bin_dir) = Raise e ->
  result (otool_analysis E tools_dir bin_name bin_path bin_dir) = Ok None.
Proof.
  intros H. unfold otool_analysis.
  now rewrite result_try_except, result_bind, H.
Qed.

Lemma otool_analysis_try_libs
    (E : Env) (tools_dir bin_name bin_path bin_dir : string) (od : otool_dict) :
  result (otool_analysis_try E tools_dir bin_name bin_path bin_dir) = Ok od ->
  exists l, otool_libs od = PyList l.
Proof.
  intros H. unfold otool_analysis_try in H.
  do 4 bind_inv H.
  destruct (get_otool_out_libs_shape _ _ _ _ _ Hv0) as [[l ->] | [-> Hnone]].
  - repeat bind_inv H.
    cbv beta iota zeta delta [result ret fst] in H. injection H as <-.
    exists l. reflexivity.
  - rewrite Hnone in Hv1. injection Hv1 as <-. discriminate Hv2.
Qed.

(* ================================================================== *)
(** * The orchestrator *)

Lemma filter_truthy_app (l1 l2 : list finding_dict) :
  filter_truthy (l1 ++ l2)%list = (filter_truthy l1 ++ filter_truthy l2)%list.
Proof.
  induction l1 as [|[f|] l1 IH]; simpl; [reflexivity| |exact IH].
  now rewrite IH.
Qed.

(** The report of a run in which every phase before the assembly
    returned. *)
Lemma binary_analysis_assembles
    (E : Env) (src tools_dir app_dir : string)
    (executable_name : option string) (dirs : list string)
    (bin_info : option BinInfo) (od : otool_dict) (l : list str)
    (cd : option finding_dict) (strs : option (list str)) :
  let dot_app_dir :=
    match find (fun dir_ => endswith dir_ ".app") dirs with
    | Some dir_ => dir_
    | None => ""
    end in
  let bin_dir := os_path_join E src dot_app_dir in
  let bin_name :=
    match executable_name with
    | None => replace ".app" "" dot_app_dir
    | Some name => name
    end in
  let bin_path := os_path_join E bin_dir bin_name in
  os_listdir E src = Some dirs ->
  is_file_exists E bin_path = true ->
  result (get_bin_info E bin_path) = Ok bin_info ->
  result (otool_analysis E tools_dir bin_name bin_path bin_dir) = Ok (Some od) ->
  otool_libs od = PyList l ->
  result (class_dump E tools_dir bin_path app_dir (detect_bin_type l)) = Ok cd ->
  result (strings_on_ipa E bin_path) = Ok strs ->
  result (binary_analysis E src tools_dir app_dir executable_name) =
  Ok (Some {| libs := PyList l;
              bin_res := (filter_truthy (anal od) ++
                          match cd with Some (Some f) => [f] | _ => [] end)%list;
              strings := strs;
              macho := Some bin_info;
              bin_type := Some (detect_bin_type l) |}).
Proof.
  intros dot_app_dir bin_dir bin_name bin_path Hdirs Hexists Hbi Hod Hl Hcd Hstrs.
  unfold binary_analysis. rewrite result_try_except.
  rewrite (bind_Ok _ _ tt) by reflexivity.
  rewrite (bind_Ok _ _ dirs)
    by (unfold listdir; run_monad; rewrite Hdirs; reflexivity).
  cbv zeta. fold dot_app_dir. fold bin_dir. fold bin_name. fold bin_path.
  rewrite Hexists. cbn [negb].
  rewrite (bind_Ok _ _ _ Hbi), (bind_Ok _ _ _ Hod).
  rewrite (bind_Ok _ _ (PyList l)) by (cbn; now rewrite Hl).
  rewrite (bind_Ok _ _ (detect_bin_type l)) by reflexivity.
  rewrite (bind_Ok _ _ _ Hcd), (bind_Ok _ _ _ Hstrs).
  rewrite (bind_Ok _ _ (anal od)) by reflexivity.
  cbn [result ret fst]. rewrite filter_truthy_app.
  destruct cd as [[f|]|]; reflexivity.
Qed.

(** C10.  [class_dump] never raises.  A fault inside it (the utility
    cannot be made executable, the utility or the fail-safe retry
    fails, the dump cannot be written) is caught there: the function
    logs the failure and returns the absent result [None], and it
    returns [None] in no other case.  In a run whose earlier phases
    returned, such a fault does not abort anything: [binary_analysis]
    still returns the report, with the library list, the signature
    findings, the header information and the extracted strings that were
    computed, and no class-dump finding. *)
Theorem class_dump_fault_is_contained
    (E : Env) (src tools_dir app_dir : string)
    (executable_name : option string) (dirs : list string)
    (bin_info : option BinInfo) (od : otool_dict) (strs : option (list str)) :
  let dot_app_dir :=
    match find (fun dir_ => endswith dir_ ".app") dirs with
    | Some dir_ => dir_
    | None => ""
    end in
  let bin_dir := os_path_join E src dot_app_dir in
  let bin_name :=
    match executable_name with
    | None => replace ".app" "" dot_app_dir
    | Some name => name
    end in
  let bin_path := os_path_join E bin_dir bin_name in
  os_listdir E src = Some dirs ->
  is_file_exists E bin_path = true ->
  result (get_bin_info E bin_path) = Ok bin_info ->
  result (otool_analysis E tools_dir bin_name bin_path bin_dir) = Ok (Some od) ->
  result (strings_on_ipa E bin_path) = Ok strs ->
  (forall bin_type,
     (exists v, result (class_dump E tools_dir bin_path app_dir bin_type) = Ok v) /\
     (class_dump_fault E tools_dir bin_path app_dir bin_type <->
      result (class_dump E tools_dir bin_path app_dir bin_type) = Ok None) /\
     (class_dump_fault E tools_dir bin_path app_dir bin_type <->
      In class_dump_failed
         (trace (class_dump E tools_dir bin_path app_dir bin_type)))) /\
  exists l,
    otool_libs od = PyList l /\
    (result (class_dump E tools_dir bin_path app_dir (detect_bin_type l)) = Ok None ->
     result (binary_analysis E src tools_dir app_dir executable_name) =
     Ok (Some {| libs := PyList l;
                 bin_res := filter_truthy (anal od);
                 strings := strs;
                 macho := Some bin_info;
                 bin_type := Some (detect_bin_type l) |})) /\
    (class_dump_fault E tools_dir bin_path app_dir (detect_bin_type l) ->
     result (binary_analysis E src tools_dir app_dir executable_name) =
     Ok (Some {| libs := PyList l;
                 bin_res := filter_truthy (anal od);
                 strings := strs;
                 macho := Some bin_info;
                 bin_type := Some (detect_bin_type l) |})).
Proof.
  intros dot_app_dir bin_dir bin_name bin_path Hdirs Hexists Hbi Hod Hstrs.
  split.
  { intros bt. split; [apply class_dump_total|].
    split; [apply class_dump_fault_iff|].
    rewrite <- class_dump_None_logged. apply class_dump_fault_iff. }
  destruct (otool_analysis_try_libs _ _ _ _ _ _ (proj1 (otool_analysis_Some _ _ _ _ _ _) Hod))
    as [l Hl].
  exists l. split; [exact Hl|].
  assert (Hreport :
    result (class_dump E tools_dir bin_path app_dir (detect_bin_type l)) = Ok None ->
    result (binary_analysis E src tools_dir app_dir executable_name) =
    Ok (Some {| libs := PyList l;
                bin_res := filter_truthy (anal od);
                strings := strs;
                macho := Some bin_info;
                bin_type := Some (detect_bin_type l) |})).
  { intros Hcd.
    rewrite (binary_analysis_assembles E src tools_dir app_dir executable_name
               dirs bin_info od l None strs Hdirs Hexists Hbi Hod Hl Hcd Hstrs).
    now rewrite app_nil_r. }
  split; [exact Hreport|].
  intros Hfault. apply Hreport. now apply class_dump_fault_iff.
Qed.

Lemma class_dump_fault_is_contained_witness :
  class_dump_fault (read_only "_malloc" "UIWebView") "/tools"
                   "/Payload/Demo.app/Demo" "/work" "Objective C" /\
  result (class_dump (read_only "_malloc" "UIWebView") "/tools"
                     "/Payload/Demo.app/Demo" "/work" "Objective C") = Ok None /\
  In class_dump_failed
     (trace (class_dump (read_only "_malloc" "UIWebView") "/tools"
                        "/Payload/Demo.app/Demo" "/work" "Objective C")) /\
  exists findings,
    result (binary_analysis (read_only "_malloc" "UIWebView")
                            "/Payload" "/tools" "/work" None) =
    Ok (Some {| libs := PyList ["/usr/lib/libSystem.B.dylib"];
                bin_res := findings;
                strings := Some ["a&lt;b"; "b"];
                macho := Some (Some {| endian := "<"; bit := "32-bit";
                                       arch := inl "ARM";
                                       subarch := "CPU_SUBTYPE_ARM_V7" |});
                bin_type := Some "Objective C" |}) /\
    map issue findings =
      ["fPIE -pie flag is Found"; "fstack-protector-all flag is not Found";
       "fobjc-arc flag is not Found"; "Binary make use of malloc Function"].
Proof.
  pose (E := read_only "_malloc" "UIWebView").
  pose (od := match result (otool_analysis E "/tools" "Demo"
                              "/Payload/Demo.app/Demo" "/Payload/Demo.app") with
              | Ok (Some od) => od
              | _ => {| otool_libs := PyNone; anal := [] |}
              end).
  assert (Hfault : class_dump_fault E "/tools" "/Payload/Demo.app/Demo" "/work"
                                    "Objective C").
  { apply (fault_write _ _ _ _ _ "UIWebView"); [|reflexivity].
    apply (dump_darwin _ _ _ _ "/tools/class-dump-z"); reflexivity. }
  destruct (class_dump_fault_is_contained
              E "/Payload" "/tools" "/work" None ["Info.plist"; "Demo.app"]
              (Some {| endian := "<"; bit := "32-bit"; arch := inl "ARM";
                       subarch := "CPU_SUBTYPE_ARM_V7" |})
              od (Some ["a&lt;b"; "b"])
              eq_refl eq_refl eq_refl eq_refl eq_refl)
    as [Hcaught [l [Hl [_ Hreport]]]].
  destruct (Hcaught "Objective C") as [_ [Hnone Hlogged]].
  split; [exact Hfault|].
  split; [now apply Hnone|].
  split; [now apply Hlogged|].
  assert (Hlibs : l = ["/usr/lib/libSystem.B.dylib"]).
  { vm_compute in Hl. now injection Hl as <-. }
  subst l. exists (filter_truthy (anal od)). split.
  - apply Hreport. exact Hfault.
  - reflexivity.
Defined.

(* ================================================================== *)
(** * The unsupported platform *)

Lemma otool_analysis_unsupported
    (E : Env) (tools_dir bin_name bin_path bin_dir : string) :
  platform_system E <> "Darwin" -> platform_system E <> "Linux" ->
  result (otool_analysis E tools_dir bin_name bin_path bin_dir) = Ok None.
Proof.
  intros HD HL. apply (otool_analysis_None _ _ _ _ _ TypeError).
  unfold otool_analysis_try.
  rewrite (bind_Ok _ _ tt) by reflexivity.
  rewrite (bind_Ok _ _ PyNone) by now rewrite get_otool_out_unsupported.
  rewrite (bind_Ok _ _ PyNone) by now rewrite get_otool_out_unsupported.
  apply bind_Raise. reflexivity.
Qed.

(** C1.  What the module does on a host that is neither Darwin nor Linux,
    for an executable that exists: each of the three kinds of evidence is
    absent ([get_otool_out] returns [None] without running anything), the
    scanner trips over the absent header dump and returns [None], and
    [binary_analysis], subscripting that [None], returns no report at
    all instead of a report with empty fields. *)
Theorem unsupported_platform_yields_no_report
    (E : Env) (src tools_dir app_dir : string)
    (executable_name : option string) (dirs : list string) :
  let dot_app_dir :=
    match find (fun dir_ => endswith dir_ ".app") dirs with
    | Some dir_ => dir_
    | None => ""
    end in
  let bin_dir := os_path_join E src dot_app_dir in
  let bin_name :=
    match executable_name with
    | None => replace ".app" "" dot_app_dir
    | Some name => name
    end in
  let bin_path := os_path_join E bin_dir bin_name in
  platform_system E <> "Darwin" -> platform_system E <> "Linux" ->
  os_listdir E src = Some dirs ->
  is_file_exists E bin_path = true ->
  (forall cmd_type, In cmd_type ["libs"; "header"; "symbols"] ->
     get_otool_out E tools_dir cmd_type bin_path bin_dir = (Ok PyNone, [])) /\
  result (otool_analysis E tools_dir bin_name bin_path bin_dir) = Ok None /\
  result (binary_analysis E src tools_dir app_dir executable_name) = Ok None.
Proof.
  intros dot_app_dir bin_dir bin_name bin_path HD HL Hdirs Hexists.
  split; [intros cmd_type _; now apply get_otool_out_unsupported|].
  split; [now apply otool_analysis_unsupported|].
  unfold binary_analysis. rewrite result_try_except.
  rewrite (bind_Ok _ _ tt) by reflexivity.
  rewrite (bind_Ok _ _ dirs)
    by (unfold listdir; run_monad; rewrite Hdirs; reflexivity).
  cbv zeta. fold dot_app_dir. fold bin_dir. fold bin_name. fold bin_path.
  rewrite Hexists. cbn [negb].
  destruct (result (get_bin_info E bin_path)) as [bin_info|e] eqn:Hbi.
  - rewrite (bind_Ok _ _ _ Hbi).
    rewrite (bind_Ok _ _ None) by now apply otool_analysis_unsupported.
    reflexivity.
  - now rewrite (bind_Raise _ _ _ Hbi).
Qed.

Lemma unsupported_platform_yields_no_report_witness :
  get_otool_out windows "/tools" "libs" "/Payload/Demo.app/Demo" "/Payload/Demo.app"
    = (Ok PyNone, []) /\
  get_otool_out windows "/tools" "header" "/Payload/Demo.app/Demo" "/Payload/Demo.app"
    = (Ok PyNone, []) /\
  get_otool_out windows "/tools" "symbols" "/Payload/Demo.app/Demo" "/Payload/Demo.app"
    = (Ok PyNone, []) /\
  result (binary_analysis windows "/Payload" "/tools" "/work" None) = Ok None.
Proof.
  destruct (unsupported_platform_yields_no_report
              windows "/Payload" "/tools" "/work" None ["Info.plist"; "Demo.app"])
    as [Hout [_ Hreport]]; try reflexivity; try discriminate.
  split; [apply Hout; simpl; tauto|].
  split; [apply Hout; simpl; tauto|].
  split; [apply Hout; simpl; tauto|].
  exact Hreport.
Defined.

(* ================================================================== *)
(** * Matching *)

Lemma length_app (a b : string) :
  String.length (a ++ b) = String.length a + String.length b.
Proof. induction a as [|c a IH]; simpl; [reflexivity | now rewrite IH]. Qed.

Lemma prefix_empty (p : string) : prefix p "" = true -> p = "".
Proof. destruct p; [reflexivity | discriminate]. Qed.

(** A match is one of the alternatives and a prefix of the text; under
    [must_advance] it is not empty. *)
Lemma first_match_Some (alts : pattern) (s : bytes) (ma : bool) (m : bytes) :
  first_match alts s ma = Some m ->
  In m alts /\ prefix m s = true /\ (ma = true -> m <> "").
Proof.
  induction alts as [|a rest IH]; simpl; [discriminate|].
  destruct (prefix a s) eqn:Hp; cbn [andb].
  - destruct (ma && (String.length a =? 0)%nat) eqn:Hz; cbn [negb].
    + intros H. destruct (IH H) as [Hin [Hpre Hne]]. auto.
    + intros H. injection H as <-. split; [now left|]. split; [exact Hp|].
      intros ->. cbn [andb] in Hz. intros ->. discriminate.
  - intros H. destruct (IH H) as [Hin [Hpre Hne]]. auto.
Qed.

(** When the search at a position fails, no non-empty alternative is a
    prefix of the text there. *)
Lemma first_match_None (alts : pattern) (s : bytes) (ma : bool) (tok : bytes) :
  first_match alts s ma = None -> In tok alts -> tok <> "" ->
  prefix tok s = false.
Proof.
  induction alts as [|a rest IH]; simpl; [intros _ []|].
  destruct (prefix a s && negb (ma && (String.length a =? 0)%nat)) eqn:Hc;
    [discriminate|].
  intros Hnone [-> | Hin] Hne; [|now apply IH].
  destruct (prefix tok s); [|reflexivity].
  destruct tok; [now elim Hne|].
  cbn in Hc. now rewrite andb_false_r in Hc.
Qed.

(** Every match reported by [findall] is an alternative that occurs in
    the text. *)
Lemma findall_from_sound (alts : pattern) (s : bytes) (skip : nat) (m : bytes) :
  In m (findall_from alts s skip) -> In m alts /\ contains m s = true.
Proof.
  revert skip. induction s as [|c s IH]; intros skip.
  - cbn [findall_from]. destruct skip; [|intros []].
    destruct (first_match alts "" false) as [m0|] eqn:Hf; [|intros []].
    intros [<- | []]. destruct (first_match_Some _ _ _ _ Hf) as [Hin [Hp _]].
    split; [exact Hin | now apply contains_prefix].
  - cbn [findall_from]. destruct skip as [|k].
    + destruct (first_match alts (String c s) false) as [m0|] eqn:Hf.
      * destruct (first_match_Some _ _ _ _ Hf) as [Hin [Hp _]].
        destruct (String.length m0) as [|n].
        -- intros [<- | H]; [split; [exact Hin | now apply contains_prefix]|].
           destruct (first_match alts (String c s) true) as [m1|] eqn:Hf1.
           ++ destruct (first_match_Some _ _ _ _ Hf1) as [Hin1 [Hp1 _]].
              destruct H as [<- | H];
                [split; [exact Hin1 | now apply contains_prefix]|].
              destruct (IH _ H) as [Hi Hc].
              split; [exact Hi | now apply contains_tail].
           ++ destruct (IH _ H) as [Hi Hc].
              split; [exact Hi | now apply contains_tail].
        -- intros [<- | H]; [split; [exact Hin | now apply contains_prefix]|].
           destruct (IH _ H) as [Hi Hc].
           split; [exact Hi | now apply contains_tail].
      * intros H. destruct (IH _ H) as [Hi Hc].
        split; [exact Hi | now apply contains_tail].
    + intros H. destruct (IH _ H) as [Hi Hc].
      split; [exact Hi | now apply contains_tail].
Qed.

(** When a non-empty alternative occurs in the text, [findall] reports
    at least one non-empty match. *)
Lemma findall_complete (alts : pattern) (s : bytes) (tok : bytes) :
  In tok alts -> tok <> "" -> contains tok s = true ->
  exists m, In m (findall alts s) /\ m <> "".
Proof.
  intros Hin Hne. unfold findall. induction s as [|c s IH].
  - simpl. rewrite orb_false_r. intros H. apply prefix_empty in H. now elim Hne.
  - rewrite contains_unfold. intros Hc. cbn [findall_from].
    destruct (first_match alts (String c s) false) as [m0|] eqn:Hf.
    + destruct (String.length m0) as [|n] eqn:Hlen.
      * destruct (first_match alts (String c s) true) as [m1|] eqn:Hf1.
        -- exists m1. split; [right; now left|].
           now apply (first_match_Some _ _ _ _ Hf1).
        -- rewrite (first_match_None _ _ _ _ Hf1 Hin Hne) in Hc.
           destruct (IH Hc) as [m [Hm Hmne]].
           exists m. split; [now right | exact Hmne].
      * exists m0. split; [now left|]. intros ->. discriminate.
    + rewrite (first_match_None _ _ _ _ Hf Hin Hne) in Hc. now apply IH.
Qed.

Lemma join_length_ge (sep : string) (l : list string) (m : string) :
  In m l -> String.length m <= String.length (join sep l).
Proof.
  unfold join. induction l as [|x l IH]; [intros []|].
  intros [-> | Hin]; simpl; destruct l as [|y l].
  - lia.
  - rewrite !length_app. lia.
  - destruct Hin.
  - rewrite !length_app. specialize (IH Hin). lia.
Qed.

(** The test [len(joined) > 1] of a category succeeds as soon as a
    non-empty alternative occurs in the text, when the non-empty
    alternatives have at least two characters. *)
Lemma matched_when_token_occurs
    (E : Env) (pat : pattern) (dat : bytes) (tok : bytes) :
  (forall t, In t pat -> t <> "" -> 2 <= String.length t) ->
  In tok pat -> tok <> "" -> occurs_in tok dat ->
  (1 <? String.length (join ", " (set_iter E (findall pat dat))))%nat = true.
Proof.
  intros Hlong Hin Hne Hocc. apply contains_occurs in Hocc.
  destruct (findall_complete _ _ _ Hin Hne Hocc) as [m [Hm Hmne]].
  destruct (findall_from_sound _ _ _ _ Hm) as [Hmin _].
  apply Nat.ltb_lt.
  assert (Hset : In m (set_iter E (findall pat dat))) by now apply set_iter_In.
  pose proof (join_length_ge ", " _ _ Hset).
  specialize (Hlong m Hmin Hmne). lia.
Qed.

(** Conversely, when the test succeeds some alternative occurs in the
    text. *)
Lemma token_occurs_when_matched
    (E : Env) (pat : pattern) (dat : bytes) :
  (1 <? String.length (join ", " (set_iter E (findall pat dat))))%nat = true ->
  exists tok, In tok pat /\ occurs_in tok dat.
Proof.
  intros H. apply Nat.ltb_lt in H.
  destruct (set_iter E (findall pat dat)) as [|m l] eqn:Hset.
  - cbn in H. lia.
  - assert (Hm : In m (findall pat dat)).
    { apply (set_iter_In E). rewrite Hset. now left. }
    destruct (findall_from_sound _ _ _ _ Hm) as [Hin Hc].
    exists m. split; [exact Hin | now apply contains_occurs].
Qed.

Lemma weak_crypto_pattern_long (t : bytes) :
  In t weak_crypto_pattern -> t <> "" -> 2 <= String.length t.
Proof.
  unfold weak_crypto_pattern. cbn [In].
  intros H Hne. repeat (destruct H as [<- | H]; [cbn; try lia; now elim Hne|]).
  destruct H.
Qed.

Lemma legacy_in_weak_crypto_pattern (tok : bytes) :
  In tok legacy_cipher_identifiers -> In tok weak_crypto_pattern /\ tok <> "".
Proof.
  unfold legacy_cipher_identifiers, weak_crypto_pattern. cbn [In].
  intros H.
  repeat (destruct H as [<- | H]; [split; [tauto | discriminate]|]).
  destruct H.
Qed.

Lemma long_tokens (pat : pattern) :
  forallb (fun t => (2 <=? String.length t)%nat) pat = true ->
  forall t, In t pat -> 2 <= String.length t.
Proof.
  intros H t Hin. rewrite forallb_forall in H.
  apply Nat.leb_le. now apply H.
Qed.

Lemma token_categories_long (title : string) (pat : pattern) :
  In (title, pat) token_categories ->
  forall t, In t pat -> 2 <= String.length t.
Proof.
  unfold token_categories. cbn [In]. intros H.
  repeat (destruct H as [H | H];
          [injection H as <- <-; apply long_tokens; vm_compute; reflexivity|]).
  destruct H.
Qed.

(* ================================================================== *)
(** * The signature scanner *)

(** The scan stops with an AttributeError as soon as the symbol text
    holds a legacy cipher identifier: the weak-crypto block is entered
    and calls [formnat]. *)
Lemma scan_raises_on_legacy_cipher
    (E : Env) (tools_dir bin_name bin_path bin_dir : string)
    (libs : tool_output) (pie_dat dat : bytes) :
  result (get_otool_out E tools_dir "libs" bin_path bin_dir) = Ok libs ->
  result (get_otool_out E tools_dir "header" bin_path bin_dir)
    = Ok (PyBytes pie_dat) ->
  result (get_otool_out E tools_dir "symbols" bin_path bin_dir)
    = Ok (PyBytes dat) ->
  (exists tok, In tok legacy_cipher_identifiers /\ occurs_in tok dat) ->
  result (otool_analysis_try E tools_dir bin_name bin_path bin_dir)
    = Raise AttributeError.
Proof.
  intros Hlibs Hpie Hdat [tok [Hin Hocc]].
  destruct (legacy_in_weak_crypto_pattern _ Hin) as [Hpat Hne].
  unfold otool_analysis_try.
  rewrite (bind_Ok _ _ tt) by reflexivity.
  rewrite (bind_Ok _ _ _ Hlibs), (bind_Ok _ _ _ Hpie).
  rewrite (bind_Ok _ _ (contains "PIE" pie_dat)) by reflexivity.
  cbv beta zeta.
  rewrite (bind_Ok _ _ _ Hdat).
  rewrite (bind_Ok _ _ (contains "stack_chk_guard" dat)) by reflexivity.
  rewrite (bind_Ok _ _ (contains "_objc_release" dat)) by reflexivity.
  rewrite (bind_Ok _ _ (findall banned_pattern dat)) by reflexivity.
  rewrite (bind_Ok _ _ (findall weak_crypto_pattern dat)) by reflexivity.
  apply bind_Raise.
  rewrite (matched_when_token_occurs E _ _ _
             weak_crypto_pattern_long Hpat Hne Hocc).
  reflexivity.
Qed.

(** C2.  What the scanner does when the symbol text contains one of the
    six legacy cipher and mode identifiers (the utilities having
    delivered the library list, the header dump and the symbol text):
    the scan raises an AttributeError inside the weak-crypto block, and
    [otool_analysis] returns [None].  No weak-crypto finding is emitted,
    and the findings of the other categories are lost with it. *)
Theorem legacy_cipher_aborts_scan
    (E : Env) (tools_dir bin_name bin_path bin_dir : string)
    (libs : tool_output) (pie_dat dat : bytes) :
  result (get_otool_out E tools_dir "libs" bin_path bin_dir) = Ok libs ->
  result (get_otool_out E tools_dir "header" bin_path bin_dir)
    = Ok (PyBytes pie_dat) ->
  result (get_otool_out E tools_dir "symbols" bin_path bin_dir)
    = Ok (PyBytes dat) ->
  (exists tok, In tok legacy_cipher_identifiers /\ occurs_in tok dat) ->
  result (otool_analysis_try E tools_dir bin_name bin_path bin_dir)
    = Raise AttributeError /\
  result (otool_analysis E tools_dir bin_name bin_path bin_dir) = Ok None.
Proof.
  intros Hlibs Hpie Hdat Htok.
  pose proof (scan_raises_on_legacy_cipher
                E tools_dir bin_name bin_path bin_dir libs pie_dat dat
                Hlibs Hpie Hdat Htok) as Hraise.
  split; [exact Hraise|]. now apply (otool_analysis_None _ _ _ _ _ AttributeError).
Qed.

Lemma legacy_cipher_aborts_scan_witness :
  result (otool_analysis (darwin "_CCCrypt kCCAlgorithmDES" "") "/tools" "Demo"
                         "/Payload/Demo.app/Demo" "/Payload/Demo.app")
    = Ok None.
Proof.
  apply (legacy_cipher_aborts_scan
           (darwin "_CCCrypt kCCAlgorithmDES" "") "/tools" "Demo"
           "/Payload/Demo.app/Demo" "/Payload/Demo.app"
           (PyList ["/usr/lib/libSystem.B.dylib"]) "MH_MAGIC ARM V7 PIE"
           "_CCCrypt kCCAlgorithmDES" eq_refl eq_refl eq_refl).
  exists "kCCAlgorithmDES". split; [now left|].
  exists "_CCCrypt ", "". reflexivity.
Defined.

(** From a successful scan: its steps, one hypothesis each, and the
    dictionary it returned. *)
Ltac scan_inv H :=
  unfold otool_analysis_try in H;
  repeat bind_inv H;
  cbv beta iota zeta delta [result ret fst] in H;
  injection H as <-.

(** The weak-crypto slot of a successful scan is the empty dictionary. *)
Lemma weak_cryptos_slot (c : bool) (k : str -> M finding_dict) (v : finding_dict) :
  result (if c then bind (raise AttributeError) k else ret None) = Ok v ->
  c = false /\ v = None.
Proof. destruct c; [discriminate | intros H; now injection H]. Qed.

Lemma re_findall_bytes (alts : pattern) (b : bytes) (v : list bytes) :
  result (re_findall alts (PyBytes b)) = Ok v -> v = findall alts b.
Proof. intros H. now injection H. Qed.

(** One slot of ['anal'] that holds the finding [f]: run [tac] on each
    finding the slot can hold. *)
Ltac slot Hin tac :=
  lazymatch type of Hin with
  | Some (if ?b then _ else _) = Some _ =>
      injection Hin as <-; destruct b; tac
  | (if ?c then Some _ else None) = Some _ =>
      destruct c; [injection Hin as <-; tac | discriminate Hin]
  end.

Ltac each_slot Hin tac :=
  repeat (destruct Hin as [Hin | Hin];
          [ first [ discriminate Hin | slot Hin tac ] |]);
  destruct Hin.

Ltac prove_known_status :=
  unfold known_status, SECURE, IN_SECURE, INFO, WARNING;
  first [ left; reflexivity
        | right; left; reflexivity
        | right; right; left; reflexivity
        | right; right; right; reflexivity ].

Ltac prove_finding_invariant :=
  unfold finding_invariant; cbn [cvss status cwe];
  split; [ discriminate |];
  split; [ prove_known_status |];
  intros Hcwe; first [ discriminate Hcwe
                     | left; reflexivity
                     | right; left; reflexivity
                     | right; right; reflexivity ].

Ltac prove_severity_rule :=
  unfold severity_rule, logging_issue; cbn [cvss status issue];
  split; [ intros [Hs | Hs];
           first [ discriminate Hs | left; reflexivity | right; reflexivity ] |];
  split; [ intros Hpos;
           first [ discriminate Hpos
                 | left; reflexivity
                 | right; left; reflexivity
                 | right; right; reflexivity ] |];
  intros Hi; first [ discriminate Hi | split; reflexivity ].

Lemma scanner_findings_invariant
    (E : Env) (tools_dir bin_name bin_path bin_dir : string)
    (od : otool_dict) (f : Finding) :
  result (otool_analysis_try E tools_dir bin_name bin_path bin_dir) = Ok od ->
  In (Some f) (anal od) -> finding_invariant f.
Proof.
  intros H Hin. scan_inv H. cbn [anal In] in Hin.
  apply weak_cryptos_slot in Hv8. destruct Hv8 as [_ ->].
  each_slot Hin prove_finding_invariant.
Qed.

Lemma scanner_findings_severity
    (E : Env) (tools_dir bin_name bin_path bin_dir : string)
    (od : otool_dict) (f : Finding) :
  result (otool_analysis_try E tools_dir bin_name bin_path bin_dir) = Ok od ->
  In (Some f) (anal od) -> severity_rule f.
Proof.
  intros H Hin. scan_inv H. cbn [anal In] in Hin.
  apply weak_cryptos_slot in Hv8. destruct Hv8 as [_ ->].
  each_slot Hin prove_severity_rule.
Qed.

(** C3, as stated, fails: the anti-debugging finding has status Warning
    and an empty weakness classification. *)
Lemma ptrace_finding_has_no_classification :
  exists od f,
    result (otool_analysis (darwin "_ptrace" "") "/tools" "Demo"
                           "/Payload/Demo.app/Demo" "/Payload/Demo.app")
      = Ok (Some od) /\
    In (Some f) (anal od) /\
    status f = WARNING /\ cwe f = "" /\
    ~ spec_finding_invariant f.
Proof.
  eexists. eexists. split; [vm_compute; reflexivity|].
  split; [cbn [anal In]; do 11 right; left; reflexivity|].
  split; [reflexivity|]. split; [reflexivity|].
  intros [_ [_ H]]. destruct (H eq_refl) as [Hs | Hs]; discriminate Hs.
Qed.

(** C3, amended.  Every finding that the signature scanner or the class
    metadata extractor produces has a severity of at least 0 and one of
    the four statuses, and its weakness classification is empty only
    when its status is Secure, Info or Warning. *)
Theorem findings_satisfy_invariant
    (E : Env) (tools_dir bin_name bin_path bin_dir app_dir bin_type : string)
    (f : Finding) :
  (exists od,
     result (otool_analysis E tools_dir bin_name bin_path bin_dir) = Ok (Some od) /\
     In (Some f) (anal od)) \/
  result (class_dump E tools_dir bin_path app_dir bin_type) = Ok (Some (Some f)) ->
  finding_invariant f.
Proof.
  intros [[od [Hod Hin]] | Hcd].
  - apply otool_analysis_Some in Hod.
    exact (scanner_findings_invariant _ _ _ _ _ _ _ Hod Hin).
  - rewrite (class_dump_finding _ _ _ _ _ _ Hcd). unfold webview_finding.
    prove_finding_invariant.
Qed.

Lemma findings_satisfy_invariant_witness :
  finding_invariant
    {| issue := "Binary calls ptrace Function for anti-debugging.";
       status := WARNING;
       description := "The binary may use ptrace function. It can be used to detect and prevent debuggers.Ptrace is not a public API and Apps that use non-public APIs will be rejected from AppStore.";
       cvss := 0;
       cwe := "" |} /\
  finding_invariant webview_finding.
Proof.
  split.
  - apply (findings_satisfy_invariant
             (darwin "_ptrace" "") "/tools" "Demo" "/Payload/Demo.app/Demo"
             "/Payload/Demo.app" "/work" "Objective C").
    left. eexists. split; [vm_compute; reflexivity|].
    cbn [anal In]. do 11 right. left. reflexivity.
  - apply (findings_satisfy_invariant
             (darwin "" "UIWebView") "/tools" "Demo" "/Payload/Demo.app/Demo"
             "/Payload/Demo.app" "/work" "Objective C").
    right. reflexivity.
Defined.

(** C4, as stated, fails: the logging finding has status Info and
    severity 7.5. *)
Lemma logging_finding_is_info_with_severity :
  exists od f,
    result (otool_analysis (darwin "_NSLog" "") "/tools" "Demo"
                           "/Payload/Demo.app/Demo" "/Payload/Demo.app")
      = Ok (Some od) /\
    In (Some f) (anal od) /\
    status f = INFO /\ (cvss f == 7.5)%Q /\
    ~ spec_severity_rule f.
Proof.
  eexists. eexists. split; [vm_compute; reflexivity|].
  split; [cbn [anal In]; do 9 right; left; reflexivity|].
  split; [reflexivity|]. split; [reflexivity|].
  intros [H _]. specialize (H (or_intror eq_refl)). discriminate H.
Qed.

(** C4, amended.  Every finding whose status is Secure or Info has
    severity 0, except the logging finding, which has status Info and
    severity 7.5; a positive severity occurs only on findings whose
    status is Insecure or Warning, and on that logging finding. *)
Theorem findings_satisfy_severity_rule
    (E : Env) (tools_dir bin_name bin_path bin_dir app_dir bin_type : string)
    (f : Finding) :
  (exists od,
     result (otool_analysis E tools_dir bin_name bin_path bin_dir) = Ok (Some od) /\
     In (Some f) (anal od)) \/
  result (class_dump E tools_dir bin_path app_dir bin_type) = Ok (Some (Some f)) ->
  severity_rule f.
Proof.
  intros [[od [Hod Hin]] | Hcd].
  - apply otool_analysis_Some in Hod.
    exact (scanner_findings_severity _ _ _ _ _ _ _ Hod Hin).
  - rewrite (class_dump_finding _ _ _ _ _ _ Hcd). unfold webview_finding.
    prove_severity_rule.
Qed.

Lemma findings_satisfy_severity_rule_witness :
  severity_rule
    {| issue := "Binary make use of Logging Function";
       status := INFO;
       description := "The binary may use NSLog function for logging.";
       cvss := 7.5;
       cwe := "CWE-532" |} /\
  severity_rule webview_finding.
Proof.
  split.
  - apply (findings_satisfy_severity_rule
             (darwin "_NSLog" "") "/tools" "Demo" "/Payload/Demo.app/Demo"
             "/Payload/Demo.app" "/work" "Objective C").
    left. eexists. split; [vm_compute; reflexivity|].
    cbn [anal In]. do 9 right. left. reflexivity.
  - apply (findings_satisfy_severity_rule
             (darwin "" "UIWebView") "/tools" "Demo" "/Payload/Demo.app/Demo"
             "/Payload/Demo.app" "/work" "Objective C").
    right. reflexivity.
Defined.

(** A scan that returns has no weak-crypto finding, and its symbol text
    holds none of the legacy cipher identifiers. *)
Lemma weak_crypto_finding_never_emitted
    (E : Env) (tools_dir bin_name bin_path bin_dir : string) (od : otool_dict) :
  result (otool_analysis E tools_dir bin_name bin_path bin_dir) = Ok (Some od) ->
  (forall f, In (Some f) (anal od) -> issue f <> weak_crypto_issue) /\
  (forall dat tok,
     result (get_otool_out E tools_dir "symbols" bin_path bin_dir)
       = Ok (PyBytes dat) ->
     In tok legacy_cipher_identifiers -> ~ occurs_in tok dat).
Proof.
  intros Hod. apply otool_analysis_Some in Hod. split.
  - intros f Hin. scan_inv Hod. cbn [anal In] in Hin.
    apply weak_cryptos_slot in Hv8. destruct Hv8 as [_ ->].
    each_slot Hin ltac:(unfold weak_crypto_issue; cbn [issue]; discriminate).
  - intros dat tok Hdat Htok Hocc.
    destruct (legacy_in_weak_crypto_pattern _ Htok) as [Hpat Hne].
    scan_inv Hod. rewrite Hdat in Hv3. injection Hv3 as <-.
    apply re_findall_bytes in Hv7. rewrite Hv7 in Hv8.
    apply weak_cryptos_slot in Hv8. destruct Hv8 as [Hc _].
    rewrite (matched_when_token_occurs E _ _ _
               weak_crypto_pattern_long Hpat Hne Hocc) in Hc.
    discriminate Hc.
Qed.

Ltac other_slot Hin Hi :=
  lazymatch type of Hin with
  | Some (if ?b then _ else _) = Some _ =>
      injection Hin as <-; destruct b; discriminate Hi
  | (if ?c then Some _ else None) = Some _ =>
      destruct c; [injection Hin as <-; discriminate Hi | discriminate Hin]
  end.

Ltac own_slot Hin :=
  lazymatch type of Hin with
  | (if ?c then Some _ else None) = Some _ =>
      let Hc := fresh "Hc" in
      destruct c eqn:Hc; [| discriminate Hin];
      exact (token_occurs_when_matched _ _ _ Hc)
  end.

Ltac pick_slot :=
  multimatch goal with
  | |- _ \/ _ => left; reflexivity
  | |- _ \/ _ => right; pick_slot
  end.

(** What holds of the eight other categories: in a scan that returns,
    the finding of a category is in the result exactly when one of the
    tokens of the category occurs in the symbol text. *)
Lemma completed_scan_category
    (E : Env) (tools_dir bin_name bin_path bin_dir : string)
    (od : otool_dict) (dat : bytes) (title : string) (pat : pattern) :
  result (otool_analysis E tools_dir bin_name bin_path bin_dir) = Ok (Some od) ->
  result (get_otool_out E tools_dir "symbols" bin_path bin_dir)
    = Ok (PyBytes dat) ->
  In (title, pat) token_categories ->
  ((exists f, In (Some f) (anal od) /\ issue f = title) <->
   (exists tok, In tok pat /\ occurs_in tok dat)).
Proof.
  intros H Hdat Hcat. apply otool_analysis_Some in H.
  pose proof (token_categories_long _ _ Hcat) as Hlong.
  scan_inv H. rewrite Hdat in Hv3. injection Hv3 as <-.
  apply weak_cryptos_slot in Hv8. destruct Hv8 as [_ ->].
  repeat match goal with
         | Hf : result (re_findall _ (PyBytes dat)) = Ok _ |- _ =>
             apply re_findall_bytes in Hf
         end.
  subst. cbn [anal In].
  unfold token_categories in Hcat. cbn [In] in Hcat.
  split.
  - intros [f [Hin Hi]].
    repeat (destruct Hcat as [Hcat | Hcat];
      [ injection Hcat as <- <-;
        repeat (destruct Hin as [Hin | Hin];
                [ first [ discriminate Hin | own_slot Hin | other_slot Hin Hi ] |]);
        destruct Hin
      |]).
    destruct Hcat.
  - intros [tok [Hin Hocc]].
    assert (Hne : tok <> "").
    { intros ->. specialize (Hlong _ Hin). cbn in Hlong. lia. }
    assert (Hlong' : forall t, In t pat -> t <> "" -> 2 <= String.length t)
      by (intros t Ht _; now apply Hlong).
    pose proof (matched_when_token_occurs E pat dat tok Hlong' Hin Hne Hocc) as Hc.
    repeat (destruct Hcat as [Hcat | Hcat];
      [ injection Hcat as <- <-; rewrite Hc;
        eexists; split; [pick_slot | reflexivity]
      |]).
    destruct Hcat.
Qed.

(** C7.  The scanner on the symbol text [_malloc kCCAlgorithmDES]: a
    token of the allocation category and a token of the weak-crypto
    category occur in the text, yet no finding is emitted for either:
    the weak-crypto block raises, [otool_analysis] returns [None], and
    so does [binary_analysis]. *)
Theorem tokens_present_but_no_finding :
  (In "_malloc" malloc_pattern /\
   occurs_in "_malloc" "_malloc kCCAlgorithmDES") /\
  (In "kCCAlgorithmDES" weak_crypto_pattern /\
   occurs_in "kCCAlgorithmDES" "_malloc kCCAlgorithmDES") /\
  findall malloc_pattern "_malloc kCCAlgorithmDES" = ["_malloc"] /\
  findall weak_crypto_pattern "_malloc kCCAlgorithmDES"
    = [""; ""; ""; ""; ""; ""; ""; ""; "kCCAlgorithmDES"; ""] /\
  result (otool_analysis (darwin "_malloc kCCAlgorithmDES" "") "/tools" "Demo"
                         "/Payload/Demo.app/Demo" "/Payload/Demo.app")
    = Ok None /\
  result (binary_analysis (darwin "_malloc kCCAlgorithmDES" "")
                          "/Payload" "/tools" "/work" None)
    = Ok None.
Proof.
  split; [split; [now left | exists "", " kCCAlgorithmDES"; reflexivity]|].
  split; [split; [now left | exists "_malloc ", ""; reflexivity]|].
  repeat split.
Qed.

(* ================================================================== *)
(** * Evidence collection *)

(** Every case analysis on what the environment answers. *)
Ltac crunch :=
  repeat (run_monad;
          match goal with
          | |- context [check_output ?E ?a] => destruct (check_output E a) eqn:?
          | |- context [os_chmod ?E ?a] => destruct (os_chmod E a) eqn:?
          | |- context [write_text ?E ?a ?b] => destruct (write_text E a b) eqn:?
          end);
  run_monad.

Ltac crunch_dump :=
  crunch;
  repeat match goal with
         | |- context [contains ?a ?b] =>
             destruct (contains a b) eqn:?; cbn [andb]; crunch
         end.

(** X1.  [get_otool_out] does nothing but run the one utility it
    resolved, on the executable: every event of a call is the execution
    of a command whose program is the configured-and-existing, else
    default, [otool] on Darwin and [jtool] on Linux, and whose last
    argument is [bin_path], and the call is for one of the three
    evidence kinds.  For another evidence kind, and on another platform,
    the call does nothing at all and returns [None].  No file is
    changed. *)
Theorem get_otool_out_runs_resolved_tool
    (E : Env) (tools_dir cmd_type bin_path bin_dir : string) :
  (forall ev,
     In ev (trace (get_otool_out E tools_dir cmd_type bin_path bin_dir)) ->
     exists tool rest,
       ev = Exec (tool :: rest) /\
       last rest "" = bin_path /\
       In cmd_type evidence_kinds /\
       ((platform_system E = "Darwin" /\ tool = otool_bin_of E) \/
        (platform_system E = "Linux" /\ tool = jtool_bin_of E tools_dir))) /\
  (~ In cmd_type evidence_kinds ->
   get_otool_out E tools_dir cmd_type bin_path bin_dir = (Ok PyNone, [])) /\
  (platform_system E <> "Darwin" -> platform_system E <> "Linux" ->
   get_otool_out E tools_dir cmd_type bin_path bin_dir = (Ok PyNone, [])).
Proof.
  split; [|split].
  - intros ev. unfold get_otool_out, evidence_kinds.
    fold (otool_bin_of E). fold (jtool_bin_of E tools_dir).
    destruct (String.eqb_spec cmd_type "libs") as [->|_];
      [|destruct (String.eqb_spec cmd_type "header") as [->|_];
        [|destruct (String.eqb_spec cmd_type "symbols") as [->|_]]];
      (destruct (String.eqb_spec (platform_system E) "Darwin") as [HD|_];
       [|destruct (String.eqb_spec (platform_system E) "Linux") as [HL|_]]);
      crunch; cbn [In]; intros H;
      repeat (destruct H as [<- | H]; [do 2 eexists; split; [reflexivity|];
                                       split; [reflexivity|]; tauto|]);
      destruct H.
  - intros Hkind. unfold get_otool_out.
    destruct (String.eqb_spec cmd_type "libs") as [Hl|_];
      [elim Hkind; rewrite Hl; cbn; tauto|].
    destruct (String.eqb_spec cmd_type "header") as [Hh|_];
      [elim Hkind; rewrite Hh; cbn; tauto|].
    destruct (String.eqb_spec cmd_type "symbols") as [Hs|_];
      [elim Hkind; rewrite Hs; cbn; tauto|].
    reflexivity.
  - apply get_otool_out_unsupported.
Qed.

Lemma get_otool_out_runs_resolved_tool_witness :
  (exists tool rest,
     Exec ["/tools/jtool.ELF64"; "-arch"; "arm"; "-lazy_bind"; "-v";
           "/Payload/Demo.app/Demo"] = Exec (tool :: rest) /\
     last rest "" = "/Payload/Demo.app/Demo" /\
     In "symbols" evidence_kinds /\
     ((platform_system (linux "" "") = "Darwin" /\ tool = otool_bin_of (linux "" "")) \/
      (platform_system (linux "" "") = "Linux" /\
       tool = jtool_bin_of (linux "" "") "/tools"))) /\
  get_otool_out (darwin "" "") "/tools" "strings" "/Payload/Demo.app/Demo"
                "/Payload/Demo.app" = (Ok PyNone, []) /\
  get_otool_out windows "/tools" "libs" "/Payload/Demo.app/Demo"
                "/Payload/Demo.app" = (Ok PyNone, []).
Proof.
  split; [|split].
  - apply (proj1 (get_otool_out_runs_resolved_tool
                    (linux "" "") "/tools" "symbols" "/Payload/Demo.app/Demo"
                    "/Payload/Demo.app")).
    vm_compute. right. left. reflexivity.
  - apply (proj1 (proj2 (get_otool_out_runs_resolved_tool
                    (darwin "" "") "/tools" "strings" "/Payload/Demo.app/Demo"
                    "/Payload/Demo.app"))).
    unfold evidence_kinds. cbn [In].
    intros [H | [H | [H | []]]]; discriminate H.
  - apply (proj2 (proj2 (get_otool_out_runs_resolved_tool
                    windows "/tools" "libs" "/Payload/Demo.app/Demo"
                    "/Payload/Demo.app"))); discriminate.
Defined.

Lemma split_nonempty (sep : ascii) (s : string) : split sep s <> [].
Proof.
  destruct s as [|c s]; cbn [split]; [discriminate|].
  destruct (Ascii.eqb c sep); [discriminate|].
  destruct (split sep s); discriminate.
Qed.

(** Joining the lines gives the text back. *)
Lemma join_split (sep : ascii) (s : string) :
  join (String sep "") (split sep s) = s.
Proof.
  unfold join. induction s as [|c s IH]; [reflexivity|].
  cbn [split]. pose proof (split_nonempty sep s) as Hne.
  destruct (Ascii.eqb_spec c sep) as [-> | Hc].
  - destruct (split sep s) as [|h t]; [now elim Hne|].
    change (String.concat (String sep "") ("" :: h :: t))
      with (String sep (String.concat (String sep "") (h :: t))).
    now rewrite IH.
  - destruct (split sep s) as [|h t]; [now elim Hne|].
    rewrite <- IH. destruct t as [|h' t]; reflexivity.
Qed.

Lemma split_no_sep (sep : ascii) (s line : string) :
  In line (split sep s) -> ~ occurs_in (String sep "") line.
Proof.
  revert line. induction s as [|c s IH]; intros line; cbn [split].
  - intros [<- | []] [pre [post H]]. destruct pre; discriminate.
  - pose proof (split_nonempty sep s) as Hne.
    destruct (Ascii.eqb_spec c sep) as [-> | Hc].
    + intros [<- | Hin]; [|now apply IH].
      intros [pre [post H]]. destruct pre; discriminate.
    + destruct (split sep s) as [|h t]; [now elim Hne|].
      intros [<- | Hin]; [|apply IH; now right].
      intros [pre [post H]]. destruct pre as [|a pre].
      * cbn in H. injection H as H _. now elim Hc.
      * cbn in H. injection H as _ H.
        apply (IH h (or_introl eq_refl)). now exists pre, post.
Qed.

(** X2.  When [get_otool_out] returns the library list, it ran exactly
    one command, and the list is the output of that command, decoded,
    stripped of the [bin_dir/] prefix and escaped, cut at the newlines:
    the list is never empty, no entry holds a newline, and joining the
    entries with newlines gives the processed text back, so that no
    line is lost or reordered. *)
Theorem libs_evidence_is_the_lines
    (E : Env) (tools_dir bin_path bin_dir : string) (l : list str) :
  result (get_otool_out E tools_dir "libs" bin_path bin_dir) = Ok (PyList l) ->
  exists args out,
    trace (get_otool_out E tools_dir "libs" bin_path bin_dir) = [Exec args] /\
    check_output E args = Some out /\
    l <> [] /\
    (forall line, In line l -> ~ occurs_in (String newline "") line) /\
    join (String newline "") l =
      smart_text E (escape E (replace (bin_dir ++ "/") "" (decode_ignore E out))).
Proof.
  unfold get_otool_out. change ("libs" =? "libs") with true. cbv iota.
  destruct (platform_system E =? "Darwin");
    [|destruct (platform_system E =? "Linux")];
    crunch; intros H; try discriminate H; injection H as <-;
    do 2 eexists; (split; [reflexivity|]); (split; [eassumption|]);
    (split; [apply split_nonempty|]); (split; [apply split_no_sep|]);
    apply join_split.
Qed.

Lemma libs_evidence_is_the_lines_witness :
  exists args out,
    trace (get_otool_out (linux "" "") "/tools" "libs" "/Payload/Demo.app/Demo"
                         "/Payload/Demo.app") = [Exec args] /\
    check_output (linux "" "") args = Some out /\
    ["Frameworks/libswiftCore.dylib"] <> [] /\
    (forall line, In line ["Frameworks/libswiftCore.dylib"] ->
       ~ occurs_in (String newline "") line) /\
    join (String newline "") ["Frameworks/libswiftCore.dylib"] =
      smart_text (linux "" "")
        (escape (linux "" "")
           (replace ("/Payload/Demo.app" ++ "/") ""
              (decode_ignore (linux "" "") out))).
Proof.
  apply (libs_evidence_is_the_lines
           (linux "" "") "/tools" "/Payload/Demo.app/Demo" "/Payload/Demo.app"
           ["Frameworks/libswiftCore.dylib"]).
  reflexivity.
Defined.

(** The header and symbol evidence is raw output, or it is absent. *)
Lemma get_otool_out_raw_shape
    (E : Env) (tools_dir cmd_type bin_path bin_dir : string) (v : tool_output) :
  cmd_type = "header" \/ cmd_type = "symbols" ->
  result (get_otool_out E tools_dir cmd_type bin_path bin_dir) = Ok v ->
  (exists b, v = PyBytes b) \/ v = PyNone.
Proof.
  intros [-> | ->]; unfold get_otool_out.
  - change ("header" =? "libs") with false.
    change ("header" =? "header") with true. cbv iota.
    destruct (platform_system E =? "Darwin");
      [|destruct (platform_system E =? "Linux")]; intros H.
    + bind_inv H. injection H as <-. left. eauto.
    + bind_inv H. injection H as <-. left. eauto.
    + injection H as <-. now right.
  - change ("symbols" =? "libs") with false.
    change ("symbols" =? "header") with false.
    change ("symbols" =? "symbols") with true. cbv iota.
    destruct (platform_system E =? "Darwin");
      [|destruct (platform_system E =? "Linux")]; intros H.
    + bind_inv H. injection H as <-. left. eauto.
    + do 2 bind_inv H. injection H as <-. left. eauto.
    + injection H as <-. now right.
Qed.

Lemma py_in_Ok (needle : bytes) (v : tool_output) (b : bool) :
  result (py_in needle v) = Ok b -> v <> PyNone.
Proof. destruct v; [discriminate | intros _; discriminate ..]. Qed.

(* ================================================================== *)
(** * When the scanner returns, and what *)

(** A duplicate-free list of strings whose join is longer than one
    character holds a non-empty string. *)
Lemma join_long_has_nonempty (sep : string) (l : list string) :
  NoDup l -> 1 < String.length (join sep l) ->
  exists m, In m l /\ m <> "".
Proof.
  intros Hnd Hlen. destruct l as [|x [|y r]].
  - cbn in Hlen. lia.
  - exists x. split; [now left|]. intros ->. cbn in Hlen. lia.
  - destruct x as [|c x].
    + exists y. split; [right; now left|]. intros ->.
      inversion Hnd as [|? ? Hnotin _]. apply Hnotin. now left.
    + exists (String c x). split; [now left | discriminate].
Qed.

Lemma weak_crypto_nonempty_is_legacy (m : bytes) :
  In m weak_crypto_pattern -> m <> "" -> In m legacy_cipher_identifiers.
Proof.
  unfold weak_crypto_pattern, legacy_cipher_identifiers. cbn [In].
  intros H Hne.
  repeat (destruct H as [<- | H]; [first [now elim Hne | tauto]|]).
  destruct H.
Qed.

(** The weak-crypto block is entered only when a legacy cipher
    identifier occurs in the symbol text. *)
Lemma weak_crypto_matched_only_on_legacy (E : Env) (dat : bytes) :
  (1 <? String.length
          (join ", " (set_iter E (findall weak_crypto_pattern dat))))%nat = true ->
  exists tok, In tok legacy_cipher_identifiers /\ occurs_in tok dat.
Proof.
  intros H. apply Nat.ltb_lt in H.
  destruct (join_long_has_nonempty _ _ (set_iter_NoDup E _) H) as [m [Hm Hne]].
  apply set_iter_In in Hm.
  destruct (findall_from_sound _ _ _ _ Hm) as [Hin Hc].
  exists m. split; [now apply weak_crypto_nonempty_is_legacy|].
  now apply contains_occurs.
Qed.

Lemma otool_analysis_returns_inv
    (E : Env) (tools_dir bin_name bin_path bin_dir : string) :
  (exists od,
     result (otool_analysis E tools_dir bin_name bin_path bin_dir) = Ok (Some od)) <->
  (exists l pie_dat dat,
     result (get_otool_out E tools_dir "libs" bin_path bin_dir) = Ok (PyList l) /\
     result (get_otool_out E tools_dir "header" bin_path bin_dir)
       = Ok (PyBytes pie_dat) /\
     result (get_otool_out E tools_dir "symbols" bin_path bin_dir)
       = Ok (PyBytes dat) /\
     forall tok, In tok legacy_cipher_identifiers -> ~ occurs_in tok dat).
Proof.
  split.
  - intros [od Hod].
    pose proof (proj2 (weak_crypto_finding_never_emitted _ _ _ _ _ _ Hod)) as Hleg.
    apply otool_analysis_Some in Hod.
    destruct (otool_analysis_try_libs _ _ _ _ _ _ Hod) as [l Hl].
    scan_inv Hod. cbn [otool_libs] in Hl. subst v0.
    destruct (get_otool_out_raw_shape _ _ _ _ _ _ (or_introl eq_refl) Hv1)
      as [[pie_dat ->] | ->]; [|now elim (py_in_Ok _ _ _ Hv2)].
    destruct (get_otool_out_raw_shape _ _ _ _ _ _ (or_intror eq_refl) Hv3)
      as [[dat ->] | ->]; [|now elim (py_in_Ok _ _ _ Hv4)].
    exists l, pie_dat, dat. repeat split; try assumption.
    intros tok. now apply Hleg.
  - intros [l [pie_dat [dat [Hlibs [Hpie [Hdat Hleg]]]]]].
    assert (Hc : (1 <? String.length
                    (join ", " (set_iter E (findall weak_crypto_pattern dat))))%nat
                 = false).
    { destruct (1 <? _)%nat eqn:Hc; [|reflexivity].
      destruct (weak_crypto_matched_only_on_legacy _ _ Hc) as [tok [Hin Hocc]].
      now elim (Hleg tok Hin). }
    eexists. apply otool_analysis_Some. unfold otool_analysis_try.
    rewrite (bind_Ok _ _ tt) by reflexivity.
    rewrite (bind_Ok _ _ _ Hlibs), (bind_Ok _ _ _ Hpie).
    rewrite (bind_Ok _ _ (contains "PIE" pie_dat)) by reflexivity.
    cbv beta zeta.
    rewrite (bind_Ok _ _ _ Hdat).
    rewrite (bind_Ok _ _ (contains "stack_chk_guard" dat)) by reflexivity.
    rewrite (bind_Ok _ _ (contains "_objc_release" dat)) by reflexivity.
    rewrite (bind_Ok _ _ (findall banned_pattern dat)) by reflexivity.
    rewrite (bind_Ok _ _ (findall weak_crypto_pattern dat)) by reflexivity.
    rewrite Hc.
    rewrite (bind_Ok _ _ None) by reflexivity.
    rewrite (bind_Ok _ _ (findall crypto_pattern dat)) by reflexivity.
    rewrite (bind_Ok _ _ (findall weak_hash_pattern dat)) by reflexivity.
    rewrite (bind_Ok _ _ (findall hash_pattern dat)) by reflexivity.
    rewrite (bind_Ok _ _ (findall random_pattern dat)) by reflexivity.
    rewrite (bind_Ok _ _ (findall log_pattern dat)) by reflexivity.
    rewrite (bind_Ok _ _ (findall malloc_pattern dat)) by reflexivity.
    rewrite (bind_Ok _ _ (findall ptrace_pattern dat)) by reflexivity.
    reflexivity.
Qed.

(** X3.  [otool_analysis] returns a dictionary exactly when all three
    pieces of evidence were collected (the library list, the header dump
    and the symbol text) and the symbol text holds none of the six
    legacy cipher identifiers; in every other case it returns [None]. *)
Theorem scan_returns_iff_evidence_complete
    (E : Env) (tools_dir bin_name bin_path bin_dir : string) :
  ((exists od,
      result (otool_analysis E tools_dir bin_name bin_path bin_dir) = Ok (Some od)) <->
   (exists l pie_dat dat,
      result (get_otool_out E tools_dir "libs" bin_path bin_dir) = Ok (PyList l) /\
      result (get_otool_out E tools_dir "header" bin_path bin_dir)
        = Ok (PyBytes pie_dat) /\
      result (get_otool_out E tools_dir "symbols" bin_path bin_dir)
        = Ok (PyBytes dat) /\
      forall tok, In tok legacy_cipher_identifiers -> ~ occurs_in tok dat)) /\
  ((forall od,
      result (otool_analysis E tools_dir bin_name bin_path bin_dir) <> Ok (Some od)) ->
   result (otool_analysis E tools_dir bin_name bin_path bin_dir) = Ok None).
Proof.
  split; [apply otool_analysis_returns_inv|].
  intros Hno. unfold otool_analysis in *.
  rewrite result_try_except, result_bind in *.
  destruct (result (otool_analysis_try _ _ _ _ _)) as [d|e]; [|reflexivity].
  now elim (Hno d).
Qed.

Lemma scan_returns_iff_evidence_complete_witness :
  (exists od,
     result (otool_analysis (linux "_malloc" "") "/tools" "Demo"
                            "/Payload/Demo.app/Demo" "/Payload/Demo.app")
       = Ok (Some od)) /\
  result (otool_analysis no_tools "/tools" "Demo"
                         "/Payload/Demo.app/Demo" "/Payload/Demo.app") = Ok None.
Proof.
  split.
  - apply (proj2 (proj1 (scan_returns_iff_evidence_complete
                           (linux "_malloc" "") "/tools" "Demo"
                           "/Payload/Demo.app/Demo" "/Payload/Demo.app"))).
    exists ["Frameworks/libswiftCore.dylib"], "MH_MAGIC ARM", "_malloc".
    split; [reflexivity|]. split; [reflexivity|]. split; [reflexivity|].
    intros tok Hin Hocc. apply contains_occurs in Hocc.
    cbn [legacy_cipher_identifiers In] in Hin.
    repeat (destruct Hin as [<- | Hin]; [discriminate Hocc|]). destruct Hin.
  - apply (proj2 (scan_returns_iff_evidence_complete
                    no_tools "/tools" "Demo"
                    "/Payload/Demo.app/Demo" "/Payload/Demo.app")).
    intros od. discriminate.
Defined.

Lemma hardening_flag_if (b : bool) (present : Prop) (f g : Finding) :
  (b = true <-> present) ->
  status f = SECURE -> (cvss f == 0)%Q -> cwe f = "" ->
  status g = IN_SECURE -> (cvss g == 2)%Q -> cwe g = "CWE-119" ->
  hardening_flag (if b then f else g) present.
Proof.
  intros Hb ? ? ? ? ? ?. destruct b; split; intros Hp; try tauto.
  all: try (exfalso; apply Hp; now apply Hb).
  all: apply Hb in Hp; discriminate Hp.
Qed.

Lemma scan_slots
    (E : Env) (tools_dir bin_name bin_path bin_dir : string)
    (od : otool_dict) (pie_dat dat : bytes) :
  result (otool_analysis E tools_dir bin_name bin_path bin_dir) = Ok (Some od) ->
  result (get_otool_out E tools_dir "header" bin_path bin_dir)
    = Ok (PyBytes pie_dat) ->
  result (get_otool_out E tools_dir "symbols" bin_path bin_dir)
    = Ok (PyBytes dat) ->
  exists pie ssp arc rest,
    anal od = Some pie :: Some ssp :: Some arc :: rest /\
    List.length rest = 9 /\ nth_error rest 1 = Some None /\
    hardening_flag pie (occurs_in "PIE" pie_dat) /\
    hardening_flag ssp (occurs_in "stack_chk_guard" dat) /\
    hardening_flag arc (occurs_in "_objc_release" dat).
Proof.
  intros Hod Hpie Hdat. apply otool_analysis_Some in Hod.
  scan_inv Hod.
  rewrite Hpie in Hv1. injection Hv1 as <-.
  rewrite Hdat in Hv3. injection Hv3 as <-.
  injection Hv2 as <-. injection Hv4 as <-. injection Hv5 as <-.
  apply weak_cryptos_slot in Hv8. destruct Hv8 as [_ ->].
  cbn [anal]. do 4 eexists. split; [reflexivity|].
  split; [reflexivity|]. split; [reflexivity|].
  split; [|split]; apply hardening_flag_if;
    try apply contains_occurs; reflexivity.
Qed.

(** X4.  A scan that returns always reports the three hardening checks,
    in the first three slots and in this order: position-independent
    code, decided on the header dump containing [PIE]; stack protection,
    decided on the symbol text containing [stack_chk_guard]; reference
    counting, decided on the symbol text containing [_objc_release].
    Each is Secure with severity 0 and no classification when the
    indicator occurs, and Insecure with severity 2 and CWE-119 when it
    does not.  Nine more slots follow. *)
Theorem hardening_flags_reported
    (E : Env) (tools_dir bin_name bin_path bin_dir : string)
    (od : otool_dict) (pie_dat dat : bytes) :
  result (otool_analysis E tools_dir bin_name bin_path bin_dir) = Ok (Some od) ->
  result (get_otool_out E tools_dir "header" bin_path bin_dir)
    = Ok (PyBytes pie_dat) ->
  result (get_otool_out E tools_dir "symbols" bin_path bin_dir)
    = Ok (PyBytes dat) ->
  exists pie ssp arc rest,
    anal od = Some pie :: Some ssp :: Some arc :: rest /\
    List.length rest = 9 /\
    hardening_flag pie (occurs_in "PIE" pie_dat) /\
    hardening_flag ssp (occurs_in "stack_chk_guard" dat) /\
    hardening_flag arc (occurs_in "_objc_release" dat).
Proof.
  intros Hod Hpie Hdat.
  destruct (scan_slots _ _ _ _ _ _ _ _ Hod Hpie Hdat)
    as [pie [ssp [arc [rest [Ha [Hl [_ H]]]]]]].
  now exists pie, ssp, arc, rest.
Qed.

Lemma hardening_flags_reported_witness :
  exists od pie ssp arc rest,
    result (otool_analysis (linux "___stack_chk_guard" "") "/tools" "Demo"
                           "/Payload/Demo.app/Demo" "/Payload/Demo.app")
      = Ok (Some od) /\
    anal od = Some pie :: Some ssp :: Some arc :: rest /\
    List.length rest = 9 /\
    hardening_flag pie (occurs_in "PIE" "MH_MAGIC ARM") /\
    hardening_flag ssp (occurs_in "stack_chk_guard" "___stack_chk_guard") /\
    hardening_flag arc (occurs_in "_objc_release" "___stack_chk_guard").
Proof.
  pose (E := linux "___stack_chk_guard" "").
  pose (od := match result (otool_analysis E "/tools" "Demo"
                              "/Payload/Demo.app/Demo" "/Payload/Demo.app") with
              | Ok (Some od) => od
              | _ => {| otool_libs := PyNone; anal := [] |}
              end).
  destruct (hardening_flags_reported
              E "/tools" "Demo" "/Payload/Demo.app/Demo" "/Payload/Demo.app"
              od "MH_MAGIC ARM" "___stack_chk_guard" eq_refl eq_refl eq_refl)
    as [pie [ssp [arc [rest H]]]].
  exists od, pie, ssp, arc, rest. split; [reflexivity | exact H].
Defined.

(* ================================================================== *)
(** * When the orchestrator returns a report, and which *)

Lemma listdir_Ok (E : Env) (src : string) (dirs : list string) :
  result (listdir E src) = Ok dirs <-> os_listdir E src = Some dirs.
Proof.
  unfold listdir. run_monad. destruct (os_listdir E src) as [d|]; cbn.
  - split; intros H; injection H as ->; reflexivity.
  - split; discriminate.
Qed.

Lemma binary_analysis_inv
    (E : Env) (src tools_dir app_dir : string)
    (executable_name : option string) (r : Report) :
  result (binary_analysis E src tools_dir app_dir executable_name) = Ok (Some r) ->
  exists dirs,
    os_listdir E src = Some dirs /\
    let bin_dir := bin_dir_of E src dirs in
    let bin_name := bin_name_of executable_name dirs in
    let bin_path := bin_path_of E src executable_name dirs in
    (is_file_exists E bin_path = false /\ r = empty_report) \/
    (is_file_exists E bin_path = true /\
     exists bi od l cd strs,
       result (get_bin_info E bin_path) = Ok bi /\
       result (otool_analysis E tools_dir bin_name bin_path bin_dir) = Ok (Some od) /\
       otool_libs od = PyList l /\
       result (class_dump E tools_dir bin_path app_dir (detect_bin_type l)) = Ok cd /\
       result (strings_on_ipa E bin_path) = Ok strs /\
       r = full_report l od cd strs bi).
Proof.
  unfold binary_analysis. rewrite result_try_except.
  destruct (result _) as [v|e] eqn:Hbody; [|discriminate].
  intros Hv. injection Hv as ->.
  bind_inv Hbody. bind_inv Hbody. apply listdir_Ok in Hv0.
  exists v0. split; [exact Hv0|]. cbv zeta in Hbody |- *.
  change (os_path_join E (os_path_join E src _) _)
    with (bin_path_of E src executable_name v0) in Hbody.
  change (os_path_join E src _) with (bin_dir_of E src v0) in Hbody.
  change (match executable_name with Some name => name | None => _ end)
    with (bin_name_of executable_name v0) in Hbody.
  destruct (is_file_exists E (bin_path_of E src executable_name v0)) eqn:Hex;
    cbn [negb] in Hbody.
  - right. split; [reflexivity|].
    bind_inv Hbody. rename Hv1 into Hbi.
    bind_inv Hbody. rename Hv1 into Hod.
    destruct v2 as [od|]; [|bind_inv Hbody; discriminate Hv1].
    bind_inv Hbody. injection Hv1 as <-.
    pose proof (otool_analysis_try_libs _ _ _ _ _ _
                  (proj1 (otool_analysis_Some _ _ _ _ _ _) Hod)) as [l Hl].
    rewrite Hl in Hbody.
    bind_inv Hbody. injection Hv1 as <-.
    bind_inv Hbody. rename Hv1 into Hcd.
    bind_inv Hbody. rename Hv1 into Hstrs.
    bind_inv Hbody. injection Hv1 as <-.
    cbv beta iota zeta delta [result ret fst] in Hbody. injection Hbody as <-.
    exists v1, od, l, v2, v3. repeat split; try assumption.
    unfold full_report. rewrite filter_truthy_app.
    destruct v2 as [[f|]|]; reflexivity.
  - left. split; [reflexivity|].
    do 2 bind_inv Hbody. now injection Hbody as <-.
Qed.

Lemma binary_analysis_total
    (E : Env) (src tools_dir app_dir : string) (executable_name : option string) :
  exists v, result (binary_analysis E src tools_dir app_dir executable_name) = Ok v.
Proof. apply try_except_total. reflexivity. Qed.

Lemma binary_analysis_missing
    (E : Env) (src tools_dir app_dir : string)
    (executable_name : option string) (dirs : list string) :
  os_listdir E src = Some dirs ->
  is_file_exists E (bin_path_of E src executable_name dirs) = false ->
  result (binary_analysis E src tools_dir app_dir executable_name)
    = Ok (Some empty_report).
Proof.
  intros Hdirs Hmissing.
  unfold bin_path_of, bin_dir_of, bin_name_of, dot_app_dir_of in Hmissing.
  unfold binary_analysis. run_monad. rewrite Hdirs. run_monad.
  rewrite Hmissing. reflexivity.
Qed.

(** X5.  [binary_analysis] never raises.  It returns a report exactly
    when the directory listing succeeds and either the executable is
    missing, or the header parser returns and the scanner returns a
    dictionary; in every other case it returns [None].  The class dump
    and the string extraction never decide whether a report is
    returned. *)
Theorem binary_analysis_returns_iff
    (E : Env) (src tools_dir app_dir : string) (executable_name : option string) :
  (exists v, result (binary_analysis E src tools_dir app_dir executable_name) = Ok v) /\
  ((exists r,
      result (binary_analysis E src tools_dir app_dir executable_name) = Ok (Some r)) <->
   (exists dirs,
      os_listdir E src = Some dirs /\
      let bin_dir := bin_dir_of E src dirs in
      let bin_name := bin_name_of executable_name dirs in
      let bin_path := bin_path_of E src executable_name dirs in
      (is_file_exists E bin_path = false \/
       (exists bi, result (get_bin_info E bin_path) = Ok bi) /\
       (exists od,
          result (otool_analysis E tools_dir bin_name bin_path bin_dir)
            = Ok (Some od))))).
Proof.
  split; [apply binary_analysis_total|]. split.
  - intros [r Hr]. destruct (binary_analysis_inv _ _ _ _ _ _ Hr) as [dirs [Hdirs H]].
    exists dirs. split; [exact Hdirs|]. cbv zeta in H |- *.
    destruct H as [[Hex _] | [_ [bi [od [l [cd [strs [Hbi [Hod _]]]]]]]]].
    + now left.
    + right. split; eauto.
  - intros [dirs [Hdirs H]]. cbv zeta in H.
    destruct (is_file_exists E (bin_path_of E src executable_name dirs)) eqn:Hex.
    + destruct H as [H | [[bi Hbi] [od Hod]]]; [discriminate|].
      destruct (otool_analysis_try_libs _ _ _ _ _ _
                  (proj1 (otool_analysis_Some _ _ _ _ _ _) Hod)) as [l Hl].
      destruct (class_dump_total E tools_dir
                  (bin_path_of E src executable_name dirs) app_dir
                  (detect_bin_type l)) as [cd Hcd].
      destruct (strings_on_ipa_total E (bin_path_of E src executable_name dirs))
        as [strs Hstrs].
      eexists.
      exact (binary_analysis_assembles E src tools_dir app_dir executable_name
               dirs bi od l cd strs Hdirs Hex Hbi Hod Hl Hcd Hstrs).
    + exists empty_report. now apply (binary_analysis_missing _ _ _ _ _ dirs).
Qed.

Lemma binary_analysis_returns_iff_witness :
  exists r,
    result (binary_analysis (read_only "_malloc" "UIWebView")
                            "/Payload" "/tools" "/work" (Some "Demo"))
      = Ok (Some r).
Proof.
  apply (proj2 (proj2 (binary_analysis_returns_iff
                         (read_only "_malloc" "UIWebView")
                         "/Payload" "/tools" "/work" (Some "Demo")))).
  exists ["Info.plist"; "Demo.app"]. split; [reflexivity|].
  right. split; eexists; vm_compute; reflexivity.
Defined.

(** X6.  A report that [binary_analysis] returns is one of two: the
    empty report, when the executable is missing; or, when it exists,
    the report assembled from the phases: the library list of the
    scanner, the findings of the scanner in scan order followed by the
    class-dump finding if there is one, the strings as
    [strings_on_ipa] returned them, the header information, and the
    binary type that [detect_bin_type] gives on that very library list.
    So the binary type of a report is ['Swift'] exactly when the
    executable exists and the report's own library list has an entry
    containing the Swift runtime library. *)
Theorem report_is_empty_or_assembled
    (E : Env) (src tools_dir app_dir : string)
    (executable_name : option string) (r : Report) :
  result (binary_analysis E src tools_dir app_dir executable_name) = Ok (Some r) ->
  (exists dirs,
     os_listdir E src = Some dirs /\
     let bin_dir := bin_dir_of E src dirs in
     let bin_name := bin_name_of executable_name dirs in
     let bin_path := bin_path_of E src executable_name dirs in
     (is_file_exists E bin_path = false /\ r = empty_report) \/
     (is_file_exists E bin_path = true /\
      exists bi od l cd strs,
        result (get_bin_info E bin_path) = Ok bi /\
        result (otool_analysis E tools_dir bin_name bin_path bin_dir) = Ok (Some od) /\
        otool_libs od = PyList l /\
        result (class_dump E tools_dir bin_path app_dir (detect_bin_type l)) = Ok cd /\
        result (strings_on_ipa E bin_path) = Ok strs /\
        r = full_report l od cd strs bi)) /\
  (exists l,
     libs r = PyList l /\
     (bin_type r = Some "Swift" <->
      macho r <> None /\
      exists itm, In itm l /\ occurs_in swift_runtime itm)).
Proof.
  intros Hr. pose proof (binary_analysis_inv _ _ _ _ _ _ Hr) as Hinv.
  split; [exact Hinv|].
  destruct Hinv as [dirs [_ H]]. cbv zeta in H.
  destruct H as [[_ ->] | [_ [bi [od [l [cd [strs [_ [_ [_ [_ [_ ->]]]]]]]]]]]].
  - exists []. split; [reflexivity|]. cbn [bin_type macho empty_report].
    split; [discriminate | intros [H _]; now elim H].
  - exists l. split; [reflexivity|]. cbn [bin_type macho full_report].
    rewrite <- existsb_contains. unfold detect_bin_type, swift_runtime.
    destruct (existsb (fun itm => contains "libswiftCore.dylib" itm) l).
    + split; [intros _; split; [discriminate | reflexivity] | reflexivity].
    + split; [discriminate | intros [_ H]; discriminate H].
Qed.

Lemma report_is_empty_or_assembled_witness :
  exists r l,
    result (binary_analysis (linux "_malloc" "UIWebView")
                            "/Payload" "/tools" "/work" None) = Ok (Some r) /\
    libs r = PyList l /\
    (bin_type r = Some "Swift" <->
     macho r <> None /\ exists itm, In itm l /\ occurs_in swift_runtime itm) /\
    map issue (bin_res r) =
      ["fPIE -pie flag is not Found"; "fstack-protector-all flag is not Found";
       "fobjc-arc flag is not Found"; "Binary make use of malloc Function";
       "Binary uses WebView Component."].
Proof.
  pose (E := linux "_malloc" "UIWebView").
  pose (r := match result (binary_analysis E "/Payload" "/tools" "/work" None) with
             | Ok (Some r) => r
             | _ => empty_report
             end).
  destruct (report_is_empty_or_assembled E "/Payload" "/tools" "/work" None r
              eq_refl) as [_ [l [Hl Hswift]]].
  exists r, l. split; [reflexivity|]. split; [exact Hl|].
  split; [exact Hswift | reflexivity].
Defined.

Lemma filter_truthy_length (l : list finding_dict) :
  List.length (filter_truthy l) <= List.length l.
Proof. induction l as [|[f|] l IH]; simpl; lia. Qed.

Lemma filter_truthy_In (l : list finding_dict) (f : Finding) :
  In f (filter_truthy l) <-> In (Some f) l.
Proof.
  induction l as [|[g|] l IH]; simpl.
  - tauto.
  - rewrite IH. split; intros [H | H]; auto.
    + left. now rewrite H.
    + left. now injection H.
  - rewrite IH. split; [auto | intros [H | H]; [discriminate | exact H]].
Qed.

(** X7.  The report of an executable that exists holds between 3 and 12
    findings, and none of them is a weak-crypto finding; each keeps the
    invariant and the severity rule of the findings (severity at least
    0, a known status, an empty classification only on Secure, Info and
    Warning; severity 0 on Secure and Info except for the logging
    finding). *)
Theorem report_findings_bounds
    (E : Env) (src tools_dir app_dir : string)
    (executable_name : option string) (r : Report) :
  result (binary_analysis E src tools_dir app_dir executable_name) = Ok (Some r) ->
  macho r <> None ->
  3 <= List.length (bin_res r) <= 12 /\
  (forall f, In f (bin_res r) ->
     issue f <> weak_crypto_issue /\ finding_invariant f /\ severity_rule f).
Proof.
  intros Hr Hmacho.
  destruct (binary_analysis_inv _ _ _ _ _ _ Hr) as [dirs [Hdirs H]].
  cbv zeta in H.
  destruct H as [[_ ->] | [_ [bi [od [l [cd [strs [Hbi [Hod [Hl [Hcd [Hstrs ->]]]]]]]]]]]];
    [now elim Hmacho|].
  cbn [bin_res full_report].
  destruct (proj1 (otool_analysis_returns_inv _ _ _ _ _) (ex_intro _ od Hod))
    as [l' [pie_dat [dat [_ [Hpie [Hdat _]]]]]].
  destruct (scan_slots _ _ _ _ _ _ _ _ Hod Hpie Hdat)
    as [pie [ssp [arc [rest [Hanal [Hlen [Hweak _]]]]]]].
  split.
  - rewrite Hanal. cbn [filter_truthy]. rewrite List.length_app. cbn [List.length].
    destruct rest as [|a [|b rest]]; try discriminate Hlen.
    cbn in Hweak. injection Hweak as ->.
    assert (Hf : List.length (filter_truthy (a :: None :: rest)) <= 8).
    { pose proof (filter_truthy_length rest) as Hr'.
      cbn [List.length] in Hlen. unfold finding_dict in *.
      destruct a; cbn [filter_truthy List.length]; lia. }
    assert (Hc : List.length
                   (match cd with Some (Some f) => [f] | _ => [] end) <= 1)
      by (destruct cd as [[f|]|]; cbn; lia).
    lia.
  - intros f Hin. apply in_app_or in Hin. destruct Hin as [Hin | Hin].
    + apply filter_truthy_In in Hin.
      pose proof (proj1 (otool_analysis_Some _ _ _ _ _ _) Hod) as Htry.
      split; [exact (proj1 (weak_crypto_finding_never_emitted _ _ _ _ _ _ Hod) f Hin)|].
      split; [exact (scanner_findings_invariant _ _ _ _ _ _ _ Htry Hin)
             | exact (scanner_findings_severity _ _ _ _ _ _ _ Htry Hin)].
    + destruct cd as [[g|]|]; [|destruct Hin ..].
      destruct Hin as [<- | []].
      rewrite (class_dump_finding _ _ _ _ _ _ Hcd). unfold webview_finding.
      split; [discriminate|]. split; [prove_finding_invariant | prove_severity_rule].
Qed.

Lemma report_findings_bounds_witness :
  exists r,
    result (binary_analysis (darwin "_ptrace _NSLog" "UIWebView")
                            "/Payload" "/tools" "/work" None) = Ok (Some r) /\
    3 <= List.length (bin_res r) <= 12.
Proof.
  pose (E := darwin "_ptrace _NSLog" "UIWebView").
  pose (r := match result (binary_analysis E "/Payload" "/tools" "/work" None) with
             | Ok (Some r) => r
             | _ => empty_report
             end).
  exists r. split; [reflexivity|].
  apply (report_findings_bounds E "/Payload" "/tools" "/work" None r eq_refl).
  discriminate.
Defined.

(** X8.  A header that does not parse is fatal: when the executable
    exists and the Mach-O parser raises, [binary_analysis] returns
    [None]; the header was read, and nothing else was done: no utility
    was run, no file was changed or written, no strings were
    extracted. *)
Theorem malformed_header_is_fatal
    (E : Env) (src tools_dir app_dir : string)
    (executable_name : option string) (dirs : list string) :
  os_listdir E src = Some dirs ->
  is_file_exists E (bin_path_of E src executable_name dirs) = true ->
  MachO_headers E (bin_path_of E src executable_name dirs) = None ->
  result (binary_analysis E src tools_dir app_dir executable_name) = Ok None /\
  In (ReadHeader (bin_path_of E src executable_name dirs))
     (trace (binary_analysis E src tools_dir app_dir executable_name)) /\
  forallb (fun ev => negb (runs_tool ev))
          (trace (binary_analysis E src tools_dir app_dir executable_name)) = true.
Proof.
  intros Hdirs Hex Hmacho.
  unfold bin_path_of, bin_dir_of, bin_name_of, dot_app_dir_of in *.
  unfold binary_analysis, get_bin_info. run_monad. rewrite Hdirs. run_monad.
  rewrite Hex. run_monad. rewrite Hmacho. run_monad.
  split; [reflexivity|]. split; [|reflexivity].
  do 3 right. now left.
Qed.

Lemma malformed_header_is_fatal_witness :
  result (binary_analysis unparsable "/Payload" "/tools" "/work" None) = Ok None /\
  In (ReadHeader "/Payload/Demo.app/Demo")
     (trace (binary_analysis unparsable "/Payload" "/tools" "/work" None)) /\
  forallb (fun ev => negb (runs_tool ev))
          (trace (binary_analysis unparsable "/Payload" "/tools" "/work" None))
    = true.
Proof.
  exact (malformed_header_is_fatal unparsable "/Payload" "/tools" "/work" None
           ["Info.plist"; "Demo.app"] eq_refl eq_refl eq_refl).
Defined.

(** X9.  [get_bin_info] reports the first header only, whatever follows
    it: the endianness and the sub-architecture of that header, 64-bit
    exactly when its magic is MH_MAGIC_64 or MH_CIGAM_64 and 32-bit
    otherwise, and the name of its CPU type when the table has one, the
    number itself when it has none.  A file without headers gives
    [None]; a parser error is not caught here. *)
Theorem get_bin_info_first_header
    (E : Env) (bin_file : string) :
  (MachO_headers E bin_file = None ->
   result (get_bin_info E bin_file) = Raise MachOError) /\
  (MachO_headers E bin_file = Some [] ->
   result (get_bin_info E bin_file) = Ok None) /\
  (forall header rest,
     MachO_headers E bin_file = Some (header :: rest) ->
     exists info,
       result (get_bin_info E bin_file) = Ok (Some info) /\
       endian info = h_endian header /\
       subarch info = get_cpu_subtype E (h_cputype header) (h_cpusubtype header) /\
       (bit info = "64-bit" <->
        MH_MAGIC header = MH_MAGIC_64 \/ MH_MAGIC header = MH_CIGAM_64) /\
       (bit info = "32-bit" <->
        MH_MAGIC header <> MH_MAGIC_64 /\ MH_MAGIC header <> MH_CIGAM_64) /\
       (forall name, arch info = inl name <->
                     CPU_TYPE_NAMES E (h_cputype header) = Some name) /\
       (forall n, arch info = inr n <->
                  CPU_TYPE_NAMES E (h_cputype header) = None /\ n = h_cputype header)).
Proof.
  unfold get_bin_info. split; [|split].
  - intros H. run_monad. now rewrite H.
  - intros H. run_monad. now rewrite H.
  - intros header rest H. run_monad. rewrite H. cbn [fst].
    eexists. split; [reflexivity|]. cbn [endian subarch bit arch].
    split; [reflexivity|]. split; [reflexivity|].
    split; [|split; [|split]].
    + destruct (Z.eqb_spec (MH_MAGIC header) MH_MAGIC_64) as [e|n];
        [cbn; tauto|].
      destruct (Z.eqb_spec (MH_MAGIC header) MH_CIGAM_64) as [e|n'];
        cbn; [tauto|]. split; [discriminate | tauto].
    + destruct (Z.eqb_spec (MH_MAGIC header) MH_MAGIC_64) as [e|n];
        [cbn; split; [discriminate | tauto]|].
      destruct (Z.eqb_spec (MH_MAGIC header) MH_CIGAM_64) as [e|n'];
        cbn; [split; [discriminate | tauto]|]. tauto.
    + intros name. destruct (CPU_TYPE_NAMES E (h_cputype header)) as [nm|].
      * split; intros Hn; injection Hn as ->; reflexivity.
      * split; discriminate.
    + intros n. destruct (CPU_TYPE_NAMES E (h_cputype header)) as [nm|].
      * split; [discriminate | intros [Hn _]; discriminate].
      * split; [intros Hn; injection Hn as <-; tauto | intros [_ ->]; reflexivity].
Qed.

Lemma get_bin_info_first_header_witness :
  result (get_bin_info unparsable "/Payload/Demo.app/Demo") = Raise MachOError /\
  exists info,
    result (get_bin_info fat_binary "/Payload/Demo.app/Demo") = Ok (Some info) /\
    bit info = "64-bit" /\ arch info = inr 16777228%Z.
Proof.
  split.
  - apply (proj1 (get_bin_info_first_header unparsable "/Payload/Demo.app/Demo")).
    reflexivity.
  - destruct (proj2 (proj2 (get_bin_info_first_header
                              fat_binary "/Payload/Demo.app/Demo"))
                arm64_header [arm_header] eq_refl)
      as [info [Hres [_ [_ [Hbit [_ [_ Harch]]]]]]].
    exists info. split; [exact Hres|]. split.
    + apply Hbit. left. reflexivity.
    + apply Harch. split; reflexivity.
Defined.

(** X10.  A utility that fails costs the whole report: when the
    executable exists and any one of the three calls of
    [get_otool_out] raises (the utility is missing or exits with an
    error), [otool_analysis] returns [None] and [binary_analysis]
    returns [None], whatever the other phases would have found. *)
Theorem tool_failure_yields_no_report
    (E : Env) (src tools_dir app_dir : string)
    (executable_name : option string) (dirs : list string)
    (cmd_type : string) (e : exn) :
  let bin_dir := bin_dir_of E src dirs in
  let bin_name := bin_name_of executable_name dirs in
  let bin_path := bin_path_of E src executable_name dirs in
  os_listdir E src = Some dirs ->
  is_file_exists E bin_path = true ->
  In cmd_type ["libs"; "header"; "symbols"] ->
  result (get_otool_out E tools_dir cmd_type bin_path bin_dir) = Raise e ->
  result (otool_analysis E tools_dir bin_name bin_path bin_dir) = Ok None /\
  result (binary_analysis E src tools_dir app_dir executable_name) = Ok None.
Proof.
  intros bin_dir bin_name bin_path Hdirs Hex Hkind Hraise.
  assert (Hnone : forall od,
            result (otool_analysis E tools_dir bin_name bin_path bin_dir)
            <> Ok (Some od)).
  { intros od Hod.
    destruct (proj1 (otool_analysis_returns_inv _ _ _ _ _) (ex_intro _ od Hod))
      as [l [pie_dat [dat [Hlibs [Hpie [Hdat _]]]]]].
    cbn [In] in Hkind.
    destruct Hkind as [<- | [<- | [<- | []]]]; rewrite Hraise in *; discriminate. }
  assert (Hscan : result (otool_analysis E tools_dir bin_name bin_path bin_dir)
                  = Ok None).
  { unfold otool_analysis in *. rewrite result_try_except, result_bind in *.
    destruct (result (otool_analysis_try _ _ _ _ _)) as [d|e']; [|reflexivity].
    now elim (Hnone d). }
  split; [exact Hscan|].
  destruct (binary_analysis_total E src tools_dir app_dir executable_name)
    as [[r|] Hr]; [|exact Hr].
  destruct (binary_analysis_inv _ _ _ _ _ _ Hr) as [dirs' [Hdirs' H]].
  rewrite Hdirs in Hdirs'. injection Hdirs' as <-. cbv zeta in H.
  destruct H as [[Hex' _] | [_ [bi [od [l [cd [strs [_ [Hod _]]]]]]]]].
  - unfold bin_path in Hex. rewrite Hex in Hex'. discriminate.
  - now elim (Hnone od).
Qed.

Lemma tool_failure_yields_no_report_witness :
  result (get_otool_out no_tools "/tools" "libs" "/Payload/Demo.app/Demo"
                        "/Payload/Demo.app") = Raise SubprocessError /\
  result (otool_analysis no_tools "/tools" "Demo" "/Payload/Demo.app/Demo"
                         "/Payload/Demo.app") = Ok None /\
  result (binary_analysis no_tools "/Payload" "/tools" "/work" None) = Ok None.
Proof.
  split; [reflexivity|].
  apply (tool_failure_yields_no_report
           no_tools "/Payload" "/tools" "/work" None ["Info.plist"; "Demo.app"]
           "libs" SubprocessError eq_refl eq_refl (or_introl eq_refl) eq_refl).
Defined.

(* ================================================================== *)
(** * Which executable is probed *)

Lemma endswith_app (name suf : string) : endswith (name ++ suf) suf = true.
Proof.
  induction name as [|c name IH]; cbn [append endswith].
  - destruct suf; cbn [endswith]; now rewrite String.eqb_refl.
  - rewrite IH. apply orb_true_r.
Qed.

Lemma contains_false_prefix (needle s : string) :
  contains needle s = false -> prefix needle s = false.
Proof.
  rewrite contains_unfold. intros H. now apply orb_false_elim in H.
Qed.

Lemma contains_false_tail (needle : string) (c : ascii) (s : string) :
  contains needle (String c s) = false -> contains needle s = false.
Proof.
  rewrite contains_unfold. intros H. now apply orb_false_elim in H.
Qed.

(** No occurrence of [.app] straddles the end of a name and the [.app]
    that follows it. *)
Lemma app_suffix_no_straddle (c : ascii) (name : string) :
  prefix ".app" (String c name) = false ->
  prefix ".app" (String c name ++ ".app") = false.
Proof.
  destruct name as [|c1 [|c2 [|c3 name]]]; cbn [prefix append]; intros H;
    try exact H;
    repeat match goal with
           | |- context [Ascii.eqb ?a ?x] =>
               is_var x; destruct (Ascii.eqb a x)
           end;
    reflexivity.
Qed.

(** Removing [.app] from a bundle name gives the name back, when the
    name itself holds no [.app]. *)
Lemma replace_app_suffix (name : string) :
  contains ".app" name = false ->
  replace ".app" "" (name ++ ".app") = name.
Proof.
  unfold replace. induction name as [|c name IH]; intros H; [reflexivity|].
  change ((String c name ++ ".app")) with (String c (name ++ ".app")).
  cbn [replace_from].
  change (String c (name ++ ".app")) with (String c name ++ ".app").
  rewrite (app_suffix_no_straddle _ _ (contains_false_prefix _ _ H)).
  now rewrite (IH (contains_false_tail _ _ _ H)).
Qed.

Lemma find_first {A} (p : A -> bool) (before after : list A) (x : A) :
  (forall y, In y before -> p y = false) -> p x = true ->
  find p (before ++ x :: after)%list = Some x.
Proof.
  intros Hb Hx. induction before as [|y before IH]; cbn [app find].
  - now rewrite Hx.
  - rewrite (Hb y (or_introl eq_refl)). apply IH.
    intros z Hz. apply Hb. now right.
Qed.

Lemma trace_bind_Ok {A B} (m : M A) (k : A -> M B) (a : A) :
  result m = Ok a -> trace (bind m k) = (trace m ++ trace (k a))%list.
Proof. intros H. now rewrite trace_bind, H. Qed.

(** The path on which [binary_analysis] decides shows in its trace: as
    the header that is read, or in the warning that it is missing. *)
Lemma probed_path
    (E : Env) (src tools_dir app_dir : string)
    (executable_name : option string) (dirs : list string) :
  os_listdir E src = Some dirs ->
  let bin_path := bin_path_of E src executable_name dirs in
  let tr := trace (binary_analysis E src tools_dir app_dir executable_name) in
  (is_file_exists E bin_path = true -> In (ReadHeader bin_path) tr) /\
  (is_file_exists E bin_path = false ->
   In (Log "WARNING" ("MobSF Cannot find binary in " ++ bin_path)) tr).
Proof.
  intros Hdirs bin_path tr. subst tr bin_path.
  unfold bin_path_of, bin_dir_of, bin_name_of, dot_app_dir_of.
  unfold binary_analysis. rewrite trace_try_except.
  rewrite (trace_bind_Ok _ _ tt) by reflexivity.
  rewrite (trace_bind_Ok _ _ dirs) by now apply listdir_Ok.
  cbv zeta.
  split; intros Hex; apply in_or_app; left; apply in_or_app; right;
    apply in_or_app; right; rewrite Hex; cbn [negb].
  - rewrite trace_bind. apply in_or_app. left.
    unfold get_bin_info.
    rewrite (trace_bind_Ok _ _ tt) by reflexivity.
    apply in_or_app. right. rewrite trace_bind. apply in_or_app. left.
    unfold MachO. rewrite trace_bind. apply in_or_app. left. now left.
  - rewrite trace_bind. apply in_or_app. left. now left.
Qed.

(** X11.  Without an executable-name override, the executable that
    [binary_analysis] probes is found from the bundle directory: the
    first entry of the listing that ends in [.app] is the bundle, later
    ones are ignored, and for a bundle [name.app] whose name holds no
    further [.app] the path is [src/name.app/name] (as the host joins
    paths).  That path is the one whose header is read when the file
    exists, and the one named in the warning when it does not. *)
Theorem executable_is_resolved_from_bundle
    (E : Env) (src tools_dir app_dir : string)
    (before after : list string) (name : string) :
  os_listdir E src = Some (before ++ (name ++ ".app")%string :: after)%list ->
  (forall d, In d before -> endswith d ".app" = false) ->
  contains ".app" name = false ->
  let bin_path := os_path_join E (os_path_join E src (name ++ ".app")) name in
  let tr := trace (binary_analysis E src tools_dir app_dir None) in
  (is_file_exists E bin_path = true -> In (ReadHeader bin_path) tr) /\
  (is_file_exists E bin_path = false ->
   In (Log "WARNING" ("MobSF Cannot find binary in " ++ bin_path)) tr).
Proof.
  intros Hdirs Hbefore Hname.
  pose proof (probed_path E src tools_dir app_dir None _ Hdirs) as H.
  unfold bin_path_of, bin_dir_of, bin_name_of, dot_app_dir_of in H.
  rewrite (find_first _ _ _ _ Hbefore (endswith_app name ".app")) in H.
  rewrite (replace_app_suffix _ Hname) in H. exact H.
Qed.

Lemma executable_is_resolved_from_bundle_witness :
  In (ReadHeader "/Payload/Demo.app/Demo")
     (trace (binary_analysis (darwin "" "") "/Payload" "/tools" "/work" None)) /\
  In (Log "WARNING" "MobSF Cannot find binary in /Payload/Demo.app/Demo")
     (trace (binary_analysis empty_bundle "/Payload" "/tools" "/work" None)).
Proof.
  assert (Hbefore : forall d, In d ["Info.plist"] -> endswith d ".app" = false).
  { intros d [<- | []]. reflexivity. }
  split.
  - apply (proj1 (executable_is_resolved_from_bundle
                    (darwin "" "") "/Payload" "/tools" "/work"
                    ["Info.plist"] [] "Demo" eq_refl Hbefore eq_refl)).
    reflexivity.
  - apply (proj2 (executable_is_resolved_from_bundle
                    empty_bundle "/Payload" "/tools" "/work"
                    ["Info.plist"] [] "Demo" eq_refl Hbefore eq_refl)).
    reflexivity.
Defined.

(* ================================================================== *)
(** * What the class dump does *)

(** X12.  On a host that is neither Darwin nor Linux [class_dump]
    returns the empty dictionary (not [None]) and does nothing but log:
    no utility is run, no permission is changed, no file is written. *)
Theorem class_dump_unsupported
    (E : Env) (tools_dir bin_path app_dir bin_type : string) :
  platform_system E <> "Darwin" -> platform_system E <> "Linux" ->
  result (class_dump E tools_dir bin_path app_dir bin_type) = Ok (Some None) /\
  forallb (fun ev => negb (runs_tool ev))
          (trace (class_dump E tools_dir bin_path app_dir bin_type)) = true.
Proof.
  intros HD HL. unfold class_dump.
  rewrite (String_eqb_false _ _ HD), (String_eqb_false _ _ HL).
  split; reflexivity.
Qed.

Lemma class_dump_unsupported_witness :
  result (class_dump windows "/tools" "/Payload/Demo.app/Demo" "/work" "Swift")
    = Ok (Some None) /\
  forallb (fun ev => negb (runs_tool ev))
          (trace (class_dump windows "/tools" "/Payload/Demo.app/Demo" "/work"
                             "Swift")) = true.
Proof.
  apply (class_dump_unsupported windows "/tools" "/Payload/Demo.app/Demo"
           "/work" "Swift"); discriminate.
Defined.

(** X13.  A web-view finding is never returned without its evidence
    being kept: whenever [class_dump] returns the finding, the run
    executed a command whose output contains [UIWebView], and it wrote
    that very output, decoded, to [classdump.txt] in the working
    directory, successfully. *)
Theorem class_dump_finding_is_persisted
    (E : Env) (tools_dir bin_path app_dir bin_type : string) (f : Finding) :
  result (class_dump E tools_dir bin_path app_dir bin_type) = Ok (Some (Some f)) ->
  exists args dump,
    In (Exec args) (trace (class_dump E tools_dir bin_path app_dir bin_type)) /\
    check_output E args = Some dump /\
    occurs_in "UIWebView" dump /\
    In (WriteFile (os_path_join E app_dir "classdump.txt") (decode_ignore E dump))
       (trace (class_dump E tools_dir bin_path app_dir bin_type)) /\
    write_text E (os_path_join E app_dir "classdump.txt") (decode_ignore E dump)
      = true.
Proof.
  unfold class_dump.
  destruct (platform_system E =? "Darwin");
    [destruct (bin_type =? "Swift")
    |destruct (platform_system E =? "Linux")];
    crunch_dump;
    intros H; try discriminate H;
    match goal with
    | Hc : contains "UIWebView" ?d = true,
      Ho : check_output E ?a = Some ?d,
      Hw : write_text E _ (decode_ignore E ?d) = true |- _ =>
        exists a, d;
        (split; [cbn [In]; tauto|]);
        (split; [exact Ho|]);
        (split; [apply contains_occurs; exact Hc|]);
        (split; [cbn [In]; tauto | exact Hw])
    end.
Qed.

Lemma class_dump_finding_is_persisted_witness :
  exists args dump,
    In (Exec args)
       (trace (class_dump (linux "" "UIWebView") "/tools"
                          "/Payload/Demo.app/Demo" "/work" "Swift")) /\
    check_output (linux "" "UIWebView") args = Some dump /\
    occurs_in "UIWebView" dump /\
    In (WriteFile "/work/classdump.txt" dump)
       (trace (class_dump (linux "" "UIWebView") "/tools"
                          "/Payload/Demo.app/Demo" "/work" "Swift")).
Proof.
  destruct (class_dump_finding_is_persisted
              (linux "" "UIWebView") "/tools" "/Payload/Demo.app/Demo" "/work"
              "Swift" webview_finding eq_refl)
    as [args [dump [Hexec [Hout [Hocc [Hwrite _]]]]]].
  exists args, dump. repeat split; assumption.
Defined.

(** X14.  The effects of [class_dump] are bounded: at most two commands
    are run and at most one file is written; a second command is run
    only on Darwin, and it is always the bundled
    [tools_dir/class-dump-swift] on [bin_path], whatever the settings
    configure; the only file ever written is [classdump.txt] in the
    working directory. *)
Theorem class_dump_effects_bounded
    (E : Env) (tools_dir bin_path app_dir bin_type : string) :
  List.length
    (filter is_exec (trace (class_dump E tools_dir bin_path app_dir bin_type))) <= 2 /\
  List.length
    (filter is_write (trace (class_dump E tools_dir bin_path app_dir bin_type))) <= 1 /\
  (platform_system E <> "Darwin" ->
   List.length
     (filter is_exec (trace (class_dump E tools_dir bin_path app_dir bin_type))) <= 1) /\
  (forall args args',
     filter is_exec (trace (class_dump E tools_dir bin_path app_dir bin_type))
       = [Exec args; Exec args'] ->
     args' = [os_path_join E tools_dir "class-dump-swift"; bin_path]) /\
  (forall path text,
     In (WriteFile path text)
        (trace (class_dump E tools_dir bin_path app_dir bin_type)) ->
     path = os_path_join E app_dir "classdump.txt").
Proof.
  unfold class_dump.
  destruct (String.eqb_spec (platform_system E) "Darwin") as [HD|HD];
    [destruct (bin_type =? "Swift")
    |destruct (platform_system E =? "Linux")];
    crunch_dump;
    cbn [filter is_exec is_write List.length andb In];
    (split; [lia|]); (split; [lia|]);
    (split; [intros Hn; first [lia | now elim Hn]|]);
    (split; [intros a a' Ha; first [discriminate Ha | now injection Ha as _ <-]|]);
    intros path text Hin;
    repeat (destruct Hin as [Hin | Hin];
            [first [discriminate Hin | now injection Hin as <- _]|]);
    destruct Hin.
Qed.

Lemma class_dump_effects_bounded_witness :
  (exists args args',
     filter is_exec
       (trace (class_dump (darwin "" "Source: (null)") "/tools"
                          "/Payload/Demo.app/Demo" "/work" "Objective C"))
     = [Exec args; Exec args'] /\
     args' = ["/tools/class-dump-swift"; "/Payload/Demo.app/Demo"]) /\
  List.length
    (filter is_exec
       (trace (class_dump (linux "" "Source: (null)") "/tools"
                          "/Payload/Demo.app/Demo" "/work" "Objective C"))) <= 1.
Proof.
  destruct (class_dump_effects_bounded
              (darwin "" "Source: (null)") "/tools" "/Payload/Demo.app/Demo"
              "/work" "Objective C") as [_ [_ [_ [Hretry _]]]].
  destruct (class_dump_effects_bounded
              (linux "" "Source: (null)") "/tools" "/Payload/Demo.app/Demo"
              "/work" "Objective C") as [_ [_ [Hlinux _]]].
  split.
  - exists ["/tools/class-dump-z"; "/Payload/Demo.app/Demo"],
           ["/tools/class-dump-swift"; "/Payload/Demo.app/Demo"].
    split; [reflexivity|].
    exact (Hretry ["/tools/class-dump-z"; "/Payload/Demo.app/Demo"]
                  ["/tools/class-dump-swift"; "/Payload/Demo.app/Demo"] eq_refl).
  - apply Hlinux. discriminate.
Defined.

(* ================================================================== *)
(** * The extracted strings as a set *)

Lemma set_iter_length (E : Env) (l : list string) :
  List.length (set_iter E l) <= List.length l.
Proof.
  apply NoDup_incl_length; [apply set_iter_NoDup|].
  intros x Hx. now apply (set_iter_In E).
Qed.

(** X15.  What [strings_on_ipa] returns depends only on the set of the
    strings that the helper extracted: two runs whose helpers list the
    same strings, in any order and with any repetitions, return lists
    with the same members; the members are exactly the escaped extracted
    strings, and the result is never longer than the helper's list. *)
Theorem strings_on_ipa_is_a_set
    (E E' : Env) (bin_path bin_path' : string) (found found' : list str) :
  strings_util E bin_path = Some found ->
  strings_util E' bin_path' = Some found' ->
  (forall s, In s found <-> In s found') ->
  (forall s, escape E s = escape E' s) ->
  exists out out',
    result (strings_on_ipa E bin_path) = Ok (Some out) /\
    result (strings_on_ipa E' bin_path') = Ok (Some out') /\
    (forall s, In s out <-> In s out') /\
    (forall s, In s out <-> exists x, In x found /\ s = escape E x) /\
    List.length out <= List.length found.
Proof.
  intros Hf Hf' Hsame Hesc.
  exists (map (escape E) (set_iter E found)),
         (map (escape E') (set_iter E' found')).
  split; [now apply strings_on_ipa_success|].
  split; [now apply strings_on_ipa_success|].
  assert (Hchar : forall (F : Env) l s,
             In s (map (escape F) (set_iter F l)) <->
             exists x, In x l /\ s = escape F x).
  { intros F l s. rewrite in_map_iff. split; intros [x [H1 H2]]; exists x.
    - split; [now apply (set_iter_In F) | now symmetry].
    - split; [now symmetry | now apply (set_iter_In F)]. }
  split; [|split].
  - intros s. rewrite !Hchar. split; intros [x [Hx ->]]; exists x.
    + split; [now apply Hsame | apply Hesc].
    + split; [now apply Hsame | symmetry; apply Hesc].
  - intros s. apply Hchar.
  - rewrite length_map. apply set_iter_length.
Qed.

Lemma strings_on_ipa_is_a_set_witness :
  exists out out',
    result (strings_on_ipa (darwin "" "") "/Payload/Demo.app/Demo") = Ok (Some out) /\
    result (strings_on_ipa reordered "/Payload/Demo.app/Demo") = Ok (Some out') /\
    (forall s, In s out <-> In s out') /\
    List.length out <= 3.
Proof.
  destruct (strings_on_ipa_is_a_set
              (darwin "" "") reordered "/Payload/Demo.app/Demo"
              "/Payload/Demo.app/Demo" ["b"; "a<b"; "b"] ["a<b"; "b"; "a<b"; "a<b"]
              eq_refl eq_refl)
    as [out [out' [H1 [H2 [H3 [_ H5]]]]]].
  - intros s. cbn [In]. tauto.
  - reflexivity.
  - exists out, out'. repeat split; try assumption; now apply H3.
Defined.

(* ================================================================== *)
(** * The token categories of a scan that returns *)

(** X16.  In a scan that returns, each of the eight token categories
    other than weak crypto (banned APIs, platform crypto, weak hashes,
    strong hashes, insecure random, logging, unchecked allocation,
    anti-debugging) is reported exactly when one of its tokens occurs in
    the symbol text: the test on the length of the joined matches agrees
    with "some token matched", because every token of these categories
    has at least two characters.  A reported category always carries
    its own fixed status, severity and weakness classification,
    whichever of its tokens matched. *)
Theorem token_category_reported_iff
    (E : Env) (tools_dir bin_name bin_path bin_dir : string)
    (od : otool_dict) (dat : bytes) (title : string) (pat : pattern) :
  result (otool_analysis E tools_dir bin_name bin_path bin_dir) = Ok (Some od) ->
  result (get_otool_out E tools_dir "symbols" bin_path bin_dir)
    = Ok (PyBytes dat) ->
  In (title, pat) token_categories ->
  ((exists f, In (Some f) (anal od) /\ issue f = title) <->
   (exists tok, In tok pat /\ occurs_in tok dat)) /\
  (forall f st sev c,
     In (Some f) (anal od) -> issue f = title ->
     In (title, (st, sev, c)) token_category_ratings ->
     status f = st /\ (cvss f == sev)%Q /\ cwe f = c).
Proof.
  intros Hod Hdat Hcat.
  split; [now apply (completed_scan_category E tools_dir bin_name bin_path bin_dir)|].
  intros f st sev c Hin Hi Hrate. apply otool_analysis_Some in Hod.
  scan_inv Hod. cbn [anal In] in Hin.
  apply weak_cryptos_slot in Hv8. destruct Hv8 as [_ ->].
  unfold token_category_ratings in Hrate. cbn [In] in Hrate.
  repeat (destruct Hrate as [Hrate | Hrate];
    [ injection Hrate as <- <- <- <-;
      repeat (destruct Hin as [Hin | Hin];
              [ first [ discriminate Hin
                      | slot Hin ltac:(first [ discriminate Hi
                                             | repeat split; reflexivity ]) ] |]);
      destruct Hin
    |]).
  destruct Hrate.
Qed.

Lemma token_category_reported_iff_witness :
  exists od,
    result (otool_analysis (linux "_NSLog _strcpy _strlen" "") "/tools" "Demo"
                           "/Payload/Demo.app/Demo" "/Payload/Demo.app")
      = Ok (Some od) /\
    (exists f, In (Some f) (anal od) /\ issue f = "Binary make use of banned API(s)") /\
    ~ (exists f, In (Some f) (anal od) /\ issue f = "Binary make use of malloc Function").
Proof.
  pose (E := linux "_NSLog _strcpy _strlen" "").
  pose (od := match result (otool_analysis E "/tools" "Demo"
                              "/Payload/Demo.app/Demo" "/Payload/Demo.app") with
              | Ok (Some od) => od
              | _ => {| otool_libs := PyNone; anal := [] |}
              end).
  exists od. split; [reflexivity|]. split.
  - apply (proj2 (proj1 (token_category_reported_iff
                    E "/tools" "Demo" "/Payload/Demo.app/Demo" "/Payload/Demo.app"
                    od "_NSLog _strcpy _strlen"
                    "Binary make use of banned API(s)" banned_pattern
                    eq_refl eq_refl (or_introl eq_refl)))).
    exists "_strcpy". split; [cbn; tauto|].
    exists "_NSLog ", " _strlen". reflexivity.
  - intros Hf.
    destruct (proj1 (proj1 (token_category_reported_iff
                       E "/tools" "Demo" "/Payload/Demo.app/Demo"
                       "/Payload/Demo.app" od "_NSLog _strcpy _strlen"
                       "Binary make use of malloc Function" malloc_pattern
                       eq_refl eq_refl
                       (or_intror (or_intror (or_intror (or_intror
                          (or_intror (or_intror (or_introl eq_refl)))))))))
                    Hf) as [tok [Hin Hocc]].
    apply contains_occurs in Hocc. destruct Hin as [<- | []]. discriminate Hocc.
Defined.
